(** * terraform-provider-postgresql: provider configuration

    A shallow embedding of [postgresql/command.go] ([getCommandOutput]) and of
    the provider definition ([Provider], [validateExpectedVersion],
    [providerConfigure]), together with the statements that relate them to
    the written specification of the configuration subsystem.

    Go values are modelled directly: [int] as [Z], [string] as [string],
    [error] as an optional error value ([None] is [nil]), a
    [map[string]interface{}] as a [gmap string Value].  Code that panics,
    mutates the process-wide random generator or spawns a child process lives
    in the small monad [Go]. *)

From stdpp Require Import gmap strings list fin_maps pretty.
From Stdlib Require Import ZArith.

Set Warnings "-register-all".

Open Scope string_scope.
Open Scope Z_scope.

(** ** Go error values *)

(** An error is either a leaf ([errors.New], or any error of a library) or
    the result of [fmt.Errorf] with a [%w] verb, which keeps the wrapped
    error reachable through [Unwrap]. *)
Inductive GoError : Type :=
| errorString (msg : string)
| wrapError (msg : string) (err : GoError).

Definition Error (e : GoError) : string :=
  match e with
  | errorString msg => msg
  | wrapError msg _ => msg
  end.

Definition Unwrap (e : GoError) : option GoError :=
  match e with
  | errorString _ => None
  | wrapError _ err => Some err
  end.

(** The Go interface type [error]; [None] is [nil]. *)
Definition error : Type := option GoError.

(** ** The [fmt] verbs used by the two files *)

(** [strings.Join]. *)
Fixpoint Join (elems : list string) (sep : string) : string :=
  match elems with
  | [] => ""
  | [a] => a
  | a :: rest => a +:+ sep +:+ Join rest sep
  end.

(** [%v] on a [[]string]: the elements separated by spaces, in brackets. *)
Definition fmt_v (args : list string) : string := "[" +:+ Join args " " +:+ "]".

(** [%d] on an [int]. *)
Definition fmt_d (n : Z) : string := pretty n.

(** [m] has [s] as a contiguous substring ([strings.Contains m s]). *)
Definition Contains (m s : string) : Prop := ∃ p q, m = p +:+ s +:+ q.

(** ** The process: its random generator and its children *)

(** One call of [cmd.Run]: command name and argument list. *)
Definition Invocation : Type := string * list string.

(** The state shared by everything that runs in the provider process: the
    process-wide [math/rand] generator, described by the seed it was last
    given and the number of values drawn since, and the commands handed to
    [cmd.Run] so far, oldest first.  A command is in that list once
    [cmd.Run] has been called on it, whether or not the operating system
    could start a child for it: a process with nothing added to the list
    has started no child. *)
Record World : Type := mkWorld {
  randSeed : Z;
  randDrawn : nat;
  spawned : list Invocation;
}.

Inductive Outcome (A : Type) : Type :=
| Returned (a : A) (w : World)
| Panicked (reason : string).
Arguments Returned {A} a w.
Arguments Panicked {A} reason.

(** A Go computation: runs in a world, and returns in a new one or panics. *)
Definition Go (A : Type) : Type := World → Outcome A.

#[global] Instance Go_ret : MRet Go := λ A a w, Returned a w.

#[global] Instance Go_bind : MBind Go := λ A B f m w,
  match m w with
  | Returned a w' => f a w'
  | Panicked reason => Panicked reason
  end.

Definition panic {A : Type} (reason : string) : Go A := λ _, Panicked reason.

(** [m] returns [a] and leaves the world as it found it. *)
Definition returns {A : Type} (m : Go A) (a : A) : Prop :=
  ∀ w, m w = Returned a w.

(** ** [os/exec] *)

(** How [cmd.Run] ended. *)
Inductive RunStatus : Type :=
| Exited (code : Z)
| StartFailed (cause : GoError)
| ContextDone (cause : GoError).

(** What a finished [cmd.Run] leaves behind: the two buffers and the way the
    run ended. *)
Record RunResult : Type := mkRunResult {
  Stdout : string;
  Stderr : string;
  Status : RunStatus;
}.

(** The [err] returned by [cmd.Run]: [nil] exactly for exit status 0, an
    [*exec.ExitError] for another status, otherwise the cause reported by
    [os/exec]. *)
Definition runErr (st : RunStatus) : error :=
  match st with
  | Exited 0 => None
  | Exited code => Some (errorString ("exit status " +:+ fmt_d code))
  | StartFailed cause => Some cause
  | ContextDone cause => Some cause
  end.

(** [context.Context], by the way it was made: the background context, a
    context derived from another one (with a cancel function, a deadline or a
    value), the provider's stop context, and [contexts.Merge].  A [nil]
    context, on which [exec.CommandContext] panics, is not a value of this
    type. *)
Inductive Context : Type :=
| Background
| Derived (parent : Context) (label : string)
| StopContext
| Merge (a b : Context).

(** The run did not end well: the child exited with another status than 0,
    could not be started, or the context was done first. *)
Definition failedRun (st : RunStatus) : Prop :=
  match st with
  | Exited code => code ≠ 0
  | StartFailed _ => True
  | ContextDone _ => True
  end.

(** The world once [cmd.Run] has been called on [command args...]. *)
Definition afterSpawn (w : World) (command : string) (args : list string)
  : World :=
  mkWorld (randSeed w) (randDrawn w) (spawned w ++ [(command, args)])%list.

Section Command.

(** The operating system: what running [command args...] under [ctx]
    gives. *)
Variable exec : Context → string → list string → RunResult.

(** [cmd.Run] on [exec.CommandContext(ctx, command, args...)] with both
    buffers attached: the call is recorded and its result returned. *)
Definition cmdRun (ctx : Context) (command : string) (args : list string)
  : Go RunResult :=
  λ w, Returned (exec ctx command args) (afterSpawn w command args).

(** command.go, [getCommandOutput]. *)
Definition getCommandOutput (ctx : Context) (command : string)
    (args : list string) : Go (string * error) :=
  cmd ← cmdRun ctx command args;
  match runErr (Status cmd) with
  | Some err =>
      mret ("", Some (wrapError
              ("failed to run " +:+ command +:+ " " +:+ fmt_v args +:+
               " stdout " +:+ Stdout cmd +:+ " stderr " +:+ Stderr cmd +:+
               " " +:+ Error err) err))
  | None => mret (Stdout cmd, None)
  end.

End Command.

(** ** [blang/semver] versions *)

Record PRVersion : Type := mkPRVersion {
  VersionStr : string;
  VersionNum : Z;
  IsNum : bool;
}.

Record Version : Type := mkVersion {
  Major : Z;
  Minor : Z;
  Patch : Z;
  Pre : list PRVersion;
  Build : list string;
}.

(** ** [helper/schema]: attribute values, schemas and [ResourceData]

    The plugin SDK is a dependency of the provider.  What follows is the part
    of its documented behaviour that [Provider] and [providerConfigure] rely
    on: how an attribute is read ([Get], [GetOk], [GetOkExists]), where its
    default comes from, and how a block is validated. *)

(** An [interface{}] as the plugin SDK hands it out. *)
Inductive Value : Type :=
| VNil
| VBool (b : bool)
| VInt (n : Z)
| VString (s : string)
| VList (l : list Value)
| VMap (m : gmap string Value).

Inductive ValueType : Type := TypeBool | TypeInt | TypeString | TypeList.

(** [ValueType.Zero]. *)
Definition Zero (t : ValueType) : Value :=
  match t with
  | TypeBool => VBool false
  | TypeInt => VInt 0
  | TypeString => VString ""
  | TypeList => VList []
  end.

(** [reflect.DeepEqual(value, t.Zero())]. *)
Definition isZero (t : ValueType) (v : Value) : bool :=
  match t, v with
  | TypeBool, VBool false => true
  | TypeInt, VInt 0 => true
  | TypeString, VString "" => true
  | TypeList, VList [] => true
  | _, _ => false
  end.

(** Type assertions [v.(string)], [v.(int)], [v.(bool)] and
    [v.([]interface{})]: they panic on any other dynamic type. *)
Definition assertString (v : Value) : Go string :=
  match v with
  | VString s => mret s
  | _ => panic "interface conversion: interface {} is not string"
  end.

Definition assertInt (v : Value) : Go Z :=
  match v with
  | VInt n => mret n
  | _ => panic "interface conversion: interface {} is not int"
  end.

Definition assertBool (v : Value) : Go bool :=
  match v with
  | VBool b => mret b
  | _ => panic "interface conversion: interface {} is not bool"
  end.

Definition assertList (v : Value) : Go (list Value) :=
  match v with
  | VList l => mret l
  | _ => panic "interface conversion: interface {} is not []interface {}"
  end.

(** [l[0]]. *)
Definition index0 (l : list Value) : Go Value :=
  match l with
  | x :: _ => mret x
  | [] => panic "index out of range [0] with length 0"
  end.

(** [m[k]] on a [map[string]interface{}]: [nil] for a missing key. *)
Definition mapIndex (m : gmap string Value) (k : string) : Value :=
  default VNil (m !! k).

(** [os.Getenv]: the empty string for a variable that is not set. *)
Definition Environ : Type := string → string.

(** A sub-field of a nested block ([Elem: &schema.Resource{...}]). *)
Record ElemSchema : Type := mkElemSchema {
  ElemType : ValueType;
  ElemRequired : bool;
}.

(** [schema.Schema], with the fields that decide a value: [Optional],
    [Description], [Sensitive] and [Deprecated] are left out. *)
Record Schema : Type := mkSchema {
  SchemaType : ValueType;
  Default : option Value;
  DefaultFunc : option (Environ → option Value);
  ValidateFunc : option (Value → string → Go (list string * list GoError));
  Elem : list (string * ElemSchema);
  MaxItems : nat;
}.

(** [schema.EnvDefaultFunc]: the variable when it is not empty, else [dv]. *)
Definition EnvDefaultFunc (k : string) (dv : option Value)
  : Environ → option Value :=
  λ env, if decide (env k ≠ "") then Some (VString (env k)) else dv.

(** [Schema.DefaultValue]: [Default] first, then [DefaultFunc]. *)
Definition DefaultValue (s : Schema) (env : Environ) : option Value :=
  match Default s with
  | Some v => Some v
  | None =>
      match DefaultFunc s with
      | Some f => f env
      | None => None
      end
  end.

(** [strconv.ParseBool]. *)
Definition ParseBool (s : string) : option bool :=
  if bool_decide (s ∈ ["1"; "t"; "T"; "TRUE"; "true"; "True"]) then Some true
  else if bool_decide (s ∈ ["0"; "f"; "F"; "FALSE"; "false"; "False"])
  then Some false
  else None.

(** The schema map: attribute name to schema, in declaration order. *)
Definition schemaMap : Type := list (string * Schema).

Fixpoint lookupSchema (sm : schemaMap) (k : string) : option Schema :=
  match sm with
  | [] => None
  | (k', s) :: rest => if decide (k' = k) then Some s else lookupSchema rest k
  end.

(** [schema.ResourceData] for a provider block: the schema, the attributes
    written in the configuration and the environment the defaults read. *)
Record ResourceData : Type := mkResourceData {
  schema : schemaMap;
  config : gmap string Value;
  environ : Environ;
}.

(** Whether the field reader finds a value at all.  The [ResourceData] of a
    provider block is read back from a diff against no state, in which a
    string set to the empty string and an empty list leave no entry. *)
Definition valueExists (v : Value) : bool :=
  match v with
  | VNil => false
  | VString "" => false
  | VList [] => false
  | _ => true
  end.

(** One element of a list of nested blocks, as the field reader hands it
    out: a map with every sub-field of the schema, an unwritten one at the
    zero value of its type, and [nil] when none of the sub-fields exists. *)
Definition readBlock (elems : list (string * ElemSchema)) (v : Value)
  : Value :=
  match v with
  | VMap m =>
      let fields :=
        (λ ke : string * ElemSchema,
           (ke.1, default (Zero (ElemType ke.2)) (m !! ke.1))) <$> elems in
      if forallb (λ kv : string * Value, negb (valueExists kv.2)) fields
      then VNil
      else VMap (list_to_map fields)
  | _ => v
  end.

(** A configured value as the field reader hands it out: a primitive as it
    is written, a list of nested blocks element by element. *)
Definition readConfigured (s : Schema) (v : Value) : Value :=
  match SchemaType s, v with
  | TypeList, VList l => VList (readBlock (Elem s) <$> l)
  | _, _ => v
  end.

Section Schema.

(** [strconv.ParseInt(s, 0, 0)]; [None] is a syntax or range error. *)
Variable ParseInt : string → option Z.

(** [stringToPrimitive]: a default read from the environment is a string
    and is converted to the attribute's type. *)
Definition stringToPrimitive (value : string) (t : ValueType)
  : option Value :=
  match t with
  | TypeBool => if decide (value = "") then Some (VBool false)
                else VBool <$> ParseBool value
  | TypeInt => if decide (value = "") then Some (VInt 0)
               else VInt <$> ParseInt value
  | TypeString => Some (VString value)
  | TypeList => None
  end.

Definition toPrimitive (v : Value) (t : ValueType) : option Value :=
  match v with
  | VString s => stringToPrimitive s t
  | _ => Some v
  end.

(** What the block says for [k], before it is read: the value as written,
    else the schema's default.  The outer [None] is a default that cannot be
    converted, the inner one an attribute with no value at all. *)
Definition rawField (d : ResourceData) (k : string) (s : Schema)
  : option (option Value) :=
  match config d !! k with
  | Some v => Some (Some v)
  | None =>
      match DefaultValue s (environ d) with
      | Some dv => Some <$> toPrimitive dv (SchemaType s)
      | None => Some None
      end
  end.

(** What the field reader finds for [k]: the configured value as
    [readConfigured] hands it out, else the schema's default.  The outer
    [None] is a read error, the inner one an attribute with no value at
    all. *)
Definition readField (d : ResourceData) (k : string) (s : Schema)
  : option (option Value) :=
  match config d !! k with
  | Some v => Some (Some (readConfigured s v))
  | None =>
      match DefaultValue s (environ d) with
      | Some dv => Some <$> toPrimitive dv (SchemaType s)
      | None => Some None
      end
  end.

(** [d.Get(k)]: the value, or the zero value of the attribute's type when
    there is none.  A read error panics. *)
Definition Get (d : ResourceData) (k : string) : Go Value :=
  match lookupSchema (schema d) k with
  | None => panic ("unknown attribute " +:+ k)
  | Some s =>
      match readField d k s with
      | None => panic ("cannot read " +:+ k)
      | Some r => mret (default (Zero (SchemaType s)) r)
      end
  end.

(** [d.GetOk(k)]: the value and whether it is set to something other than
    the zero value of its type. *)
Definition GetOk (d : ResourceData) (k : string) : Go (Value * bool) :=
  match lookupSchema (schema d) k with
  | None => panic ("unknown attribute " +:+ k)
  | Some s =>
      match readField d k s with
      | None => panic ("cannot read " +:+ k)
      | Some (Some v) => mret (v, negb (isZero (SchemaType s) v))
      | Some None => mret (Zero (SchemaType s), false)
      end
  end.

(** [schemaMap.validate] on one attribute.  The value checked is the
    configured one, else what [DefaultFunc] gives; a static [Default] is
    not validated.  [ValidateFunc] sees the value at the attribute's
    type. *)
Definition validateAttr (d : ResourceData) (k : string) (s : Schema)
  : Go (list GoError) :=
  let raw := match config d !! k with
             | Some v => Some v
             | None => match DefaultFunc s with
                       | Some f => f (environ d)
                       | None => None
                       end
             end in
  match raw with
  | None => mret []
  | Some v =>
      match toPrimitive v (SchemaType s) with
      | None => mret [errorString (k +:+ ": cannot parse value")]
      | Some v' =>
          match ValidateFunc s with
          | None => mret []
          | Some f => '(_, es) ← f v' k; mret es
          end
      end
  end.

(** [schemaMap.Validate]: the errors of all attributes. *)
Fixpoint validateAll (d : ResourceData) (sm : schemaMap)
  : Go (list GoError) :=
  match sm with
  | [] => mret []
  | (k, s) :: rest =>
      es ← validateAttr d k s;
      es' ← validateAll d rest;
      mret (es ++ es')%list
  end.

Definition Validate (d : ResourceData) : Go (list GoError) :=
  validateAll d (schema d).

(** [validation.StringInSlice(valid, false)]. *)
Definition StringInSlice (valid : list string)
  : Value → string → Go (list string * list GoError) :=
  λ i k,
    match i with
    | VString v =>
        if bool_decide (v ∈ valid) then mret ([], [])
        else mret ([], [errorString ("expected " +:+ k +:+ " to be one of " +:+
                                     fmt_v valid +:+ ", got " +:+ v)])
    | _ => mret ([], [errorString ("expected type of " +:+ k +:+
                                   " to be string")])
    end.

(** [validation.IntAtLeast(min)]. *)
Definition IntAtLeast (min : Z)
  : Value → string → Go (list string * list GoError) :=
  λ i k,
    match i with
    | VInt v =>
        if decide (v < min)
        then mret ([], [errorString ("expected " +:+ k +:+
                                     " to be at least (" +:+ fmt_d min +:+
                                     "), got " +:+ fmt_d v)])
        else mret ([], [])
    | _ => mret ([], [errorString ("expected type of " +:+ k +:+
                                   " to be int")])
    end.

End Schema.

(** ** The connection descriptor *)

Record ClientCertificateConfig : Type := mkClientCertificateConfig {
  CertificatePath : string;
  KeyPath : string;
}.

(** [Config], with the fields the struct literal of [providerConfigure]
    fills in. *)
Record Config : Type := mkConfig {
  Scheme : string;
  Host : string;
  Port : Z;
  Username : string;
  Password : string;
  DatabaseUsername : string;
  Superuser : bool;
  SSLMode : string;
  ApplicationName : string;
  ConnectTimeoutSec : Z;
  MaxConns : Z;
  ExpectedVersion : Version;
  SSLRootCertPath : string;
  JumpHost : string;
  TunneledPort : Z;
  PasswordCommand : string;
  ctx : Context;
  SSLClientCert : option ClientCertificateConfig;
}.

Definition withSSLClientCert (c : Config) (cert : ClientCertificateConfig)
  : Config :=
  mkConfig (Scheme c) (Host c) (Port c) (Username c) (Password c)
    (DatabaseUsername c) (Superuser c) (SSLMode c) (ApplicationName c)
    (ConnectTimeoutSec c) (MaxConns c) (ExpectedVersion c) (SSLRootCertPath c)
    (JumpHost c) (TunneledPort c) (PasswordCommand c) (ctx c) (Some cert).

(** Modelled from the spec: [Client] and [Config.NewClient] are declared in
    config.go, which is not among the sources.  The specification has the
    descriptor carry a database name and be handed unchanged to the client
    constructor, so the client is the descriptor with the database name. *)
Record Client : Type := mkClient {
  clientConfig : Config;
  databaseName : string;
}.

Definition NewClient (c : Config) (database : string) : Client :=
  mkClient c database.

(** ** [math/rand] *)

Section Rand.

(** The value [rand.Intn(n)] gives as draw number [k] after [rand.Seed(s)]. *)
Variable randIntn : Z → nat → Z → Z.

(** [rand.Seed]. *)
Definition rand_Seed (seed : Z) : Go unit :=
  λ w, Returned () (mkWorld seed 0 (spawned w)).

(** [rand.Intn]: it panics when [n <= 0]. *)
Definition rand_Intn (n : Z) : Go Z :=
  λ w, if decide (n ≤ 0) then Panicked "invalid argument to Intn"
       else Returned (randIntn (randSeed w) (randDrawn w) n)
              (mkWorld (randSeed w) (S (randDrawn w)) (spawned w)).

(** provider.go, [init]; [now] is [time.Now().UnixNano()]. *)
Definition init (now : Z) : Go unit := rand_Seed now.

(** How a seed string becomes the [int64] given to [rand.Seed]. *)
Variable hashSeed : string → Z.

(** Modelled from the spec: [getRandomPort] is defined in config.go, which
    is not among the sources.  The specification derives the port "in the
    registered/dynamic range (1024-65535) by seeding a pseudo-random
    generator with a stable string built from host and port": the
    process-wide generator is seeded from the string and one value is
    drawn from the 64512 ports of the range. *)
Definition getRandomPort (seed : string) : Go Z :=
  _ ← rand_Seed (hashSeed seed);
  n ← rand_Intn (65535 - 1024 + 1);
  mret (1024 + n).

End Rand.

(** ** provider.go *)

Definition defaultProviderMaxOpenConnections : Z := 20.
Definition defaultExpectedPostgreSQLVersion : string := "9.0.0".

(** [schema.Provider]: the schema and the configure function. *)
Record SchemaProvider : Type := mkSchemaProvider {
  ProviderSchema : schemaMap;
  ConfigureFunc : ResourceData → Go (Client * error);
}.

(** How the framework's configuration of a provider ends. *)
Inductive ConfigureResult : Type :=
| Configured (meta : Client)
| Rejected (errs : list GoError)
| Failed (err : GoError).

Section Provider.

Variable ParseInt : string → option Z.

(** [semver.ParseTolerant]. *)
Variable ParseTolerant : string → Version * error.

(** [strconv.Quote], the [%q] verb. *)
Variable Quote : string → string.

Variable randIntn : Z → nat → Z → Z.
Variable hashSeed : string → Z.

(** provider.go, [validateExpectedVersion]. *)
Definition validateExpectedVersion (v : Value) (key : string)
  : Go (list string * list GoError) :=
  s ← assertString v;
  match snd (ParseTolerant s) with
  | Some err =>
      mret ([], [wrapError ("invalid version (" +:+ Quote s +:+ "): " +:+
                            Error err) err])
  | None => mret ([], [])
  end.

Definition attribute (t : ValueType) (dflt : option Value)
    (dfltFunc : option (Environ → option Value))
    (validate : option (Value → string → Go (list string * list GoError)))
  : Schema :=
  mkSchema t dflt dfltFunc validate [] 0.

(** provider.go, [Provider]: the [Schema] map. *)
Definition providerSchema : schemaMap :=
  [ ("scheme", attribute TypeString (Some (VString "postgres")) None
       (Some (StringInSlice ["postgres"; "awspostgres"; "gcppostgres"])));
    ("host", attribute TypeString None
       (Some (EnvDefaultFunc "PGHOST" None)) None);
    ("port", attribute TypeInt None
       (Some (EnvDefaultFunc "PGPORT" (Some (VInt 5432)))) None);
    ("database", attribute TypeString None
       (Some (EnvDefaultFunc "PGDATABASE" (Some (VString "postgres")))) None);
    ("username", attribute TypeString None
       (Some (EnvDefaultFunc "PGUSER" (Some (VString "postgres")))) None);
    ("password", attribute TypeString None
       (Some (EnvDefaultFunc "PGPASSWORD" None)) None);
    ("password_command", attribute TypeString None None None);
    ("database_username", attribute TypeString None None None);
    ("superuser", attribute TypeBool None
       (Some (EnvDefaultFunc "PGSUPERUSER" (Some (VBool true)))) None);
    ("sslmode", attribute TypeString None
       (Some (EnvDefaultFunc "PGSSLMODE" None)) None);
    ("ssl_mode", attribute TypeString None None None);
    ("clientcert",
       mkSchema TypeList None None None
         [ ("cert", mkElemSchema TypeString true);
           ("key", mkElemSchema TypeString true) ] 1);
    ("sslrootcert", attribute TypeString None None None);
    ("connect_timeout", attribute TypeInt None
       (Some (EnvDefaultFunc "PGCONNECT_TIMEOUT" (Some (VInt 180))))
       (Some (IntAtLeast (-1))));
    ("max_connections", attribute TypeInt
       (Some (VInt defaultProviderMaxOpenConnections)) None
       (Some (IntAtLeast (-1))));
    ("expected_version", attribute TypeString
       (Some (VString defaultExpectedPostgreSQLVersion)) None
       (Some validateExpectedVersion));
    ("jumphost", attribute TypeString None None None) ].

(** provider.go, [providerConfigure]. *)
Definition providerConfigure (ctx : Context) (d : ResourceData)
  : Go (Client * error) :=
  '(sslModeRaw, ok) ← GetOk ParseInt d "sslmode";
  sslMode ← (if ok : bool then assertString sslModeRaw
             else
               sslModeDeprecated ←
                 Get ParseInt d "ssl_mode" ≫= assertString;
               if decide (sslModeDeprecated ≠ "")
               then mret sslModeDeprecated
               else mret "");
  versionStr ← Get ParseInt d "expected_version" ≫= assertString;
  let '(version, _) := ParseTolerant versionStr in
  host ← Get ParseInt d "host" ≫= assertString;
  port ← Get ParseInt d "port" ≫= assertInt;
  scheme ← Get ParseInt d "scheme" ≫= assertString;
  username ← Get ParseInt d "username" ≫= assertString;
  password ← Get ParseInt d "password" ≫= assertString;
  databaseUsername ← Get ParseInt d "database_username" ≫= assertString;
  superuser ← Get ParseInt d "superuser" ≫= assertBool;
  connectTimeoutSec ← Get ParseInt d "connect_timeout" ≫= assertInt;
  maxConns ← Get ParseInt d "max_connections" ≫= assertInt;
  sslRootCertPath ← Get ParseInt d "sslrootcert" ≫= assertString;
  jumpHost ← Get ParseInt d "jumphost" ≫= assertString;
  tunneledPort ← getRandomPort randIntn hashSeed (host +:+ fmt_d port);
  passwordCommand ← Get ParseInt d "password_command" ≫= assertString;
  let config :=
    mkConfig scheme host port username password databaseUsername superuser
      sslMode "Terraform provider" connectTimeoutSec maxConns version
      sslRootCertPath jumpHost tunneledPort passwordCommand ctx None in
  '(value, ok) ← GetOk ParseInt d "clientcert";
  config ← (if ok : bool then
              l ← assertList value;
              first ← index0 l;
              match first with
              | VMap spec =>
                  cert ← assertString (mapIndex spec "cert");
                  key ← assertString (mapIndex spec "key");
                  mret (withSSLClientCert config
                          (mkClientCertificateConfig cert key))
              | _ => mret config
              end
            else mret config);
  database ← Get ParseInt d "database" ≫= assertString;
  let client := NewClient config database in
  mret (client, None).

(** provider.go, [Provider]: the schema above, and a [ConfigureFunc] that
    runs [providerConfigure] under the merge of the stop context and
    [ctx].  The resources map plays no part in configuration and is left
    out. *)
Definition Provider (ctx : Context) : SchemaProvider :=
  mkSchemaProvider providerSchema
    (λ d, providerConfigure (Merge StopContext ctx) d).

(** The framework's part: the attributes written in the configuration are
    validated against the provider's schema, and [ConfigureFunc] runs on
    the resulting [ResourceData] only when no attribute reported an
    error. *)
Definition configure (p : SchemaProvider) (c : gmap string Value)
    (env : Environ) : Go ConfigureResult :=
  let d := mkResourceData (ProviderSchema p) c env in
  es ← Validate ParseInt d;
  match es with
  | [] =>
      '(meta, err) ← ConfigureFunc p d;
      match err with
      | Some e => mret (Failed e)
      | None => mret (Configured meta)
      end
  | _ => mret (Rejected es)
  end.

End Provider.

(** ** Password resolution *)

(** The line feed character and the one-character string ["\n"]. *)
Definition LF : Ascii.ascii := Ascii.ascii_of_nat 10.
Definition newline : string := String LF "".

(** [strings.TrimSuffix(s, "\n")]: one trailing line feed is removed. *)
Fixpoint trimLineTerminator (s : string) : string :=
  match s with
  | "" => ""
  | String c rest =>
      match rest with
      | "" => if decide (c = LF) then "" else s
      | _ => String c (trimLineTerminator rest)
      end
  end.

Section Password.

Variable ParseInt : string → option Z.
Variable exec : Context → string → list string → RunResult.

(** [d.GetOkExists(k)]: the value and whether the field reader found one.
    On a provider block that is not the case for a string set to the empty
    string, which reads like a string that is not set. *)
Definition GetOkExists (d : ResourceData) (k : string) : Go (Value * bool) :=
  match lookupSchema (schema d) k with
  | None => panic ("unknown attribute " +:+ k)
  | Some s =>
      match readField ParseInt d k s with
      | None => panic ("cannot read " +:+ k)
      | Some (Some v) => mret (v, valueExists v)
      | Some None => mret (Zero (SchemaType s), false)
      end
  end.

(** Modelled from the spec: the step that turns [password] and
    [password_command] into the password in use is not in the sources
    ([providerConfigure] stores both attributes in the descriptor).  The
    specification, section 4.2 step 4: a supplied static password is used
    verbatim; otherwise a non-empty password-command, "an arbitrary
    external executable named by configuration", is run by the process
    executor under the assembly's context and its standard output, trimmed
    of the trailing line terminator, is the password, a failure of the
    executor being passed on unchanged; with neither, the password is
    empty.  The specification wants a password set to the empty string to
    count as supplied and leaves open, in section 9, how it is told from
    one that is not set; [GetOkExists], the call the SDK has for that
    question, reports both as not set on a provider block, and so this step
    takes a password to be supplied when it is not empty. *)
Definition resolvePassword (ctx : Context) (d : ResourceData)
  : Go (string * error) :=
  '(passwordRaw, supplied) ← GetOkExists d "password";
  if supplied : bool then
    password ← assertString passwordRaw;
    mret (password, None)
  else
    passwordCommand ← Get ParseInt d "password_command" ≫= assertString;
    if decide (passwordCommand ≠ "") then
      '(out, err) ← getCommandOutput exec ctx passwordCommand [];
      match err with
      | Some e => mret ("", Some e)
      | None => mret (trimLineTerminator out, None)
      end
    else mret ("", None).

End Password.

(** ** Well-typed provider blocks *)

Section Typing.

Variable ParseInt : string → option Z.

Definition primitiveTyped (t : ValueType) (v : Value) : bool :=
  match t, v with
  | TypeBool, VBool _ => true
  | TypeInt, VInt _ => true
  | TypeString, VString _ => true
  | _, _ => false
  end.

(** A nested block: a map with every required sub-field at its type. *)
Definition blockTyped (elems : list (string * ElemSchema)) (v : Value)
  : bool :=
  match v with
  | VMap m =>
      forallb (λ '(k, es),
                 match m !! k with
                 | Some x => primitiveTyped (ElemType es) x
                 | None => negb (ElemRequired es)
                 end) elems
  | _ => false
  end.

Definition hasType (s : Schema) (v : Value) : bool :=
  match SchemaType s, v with
  | TypeList, VList l =>
      bool_decide (MaxItems s = 0 ∨ length l ≤ MaxItems s)%nat
      && forallb (blockTyped (Elem s)) l
  | t, _ => primitiveTyped t v
  end.

(** What the block says for the attribute has the type its schema declares,
    every required sub-field of a nested block being written. *)
Definition typedAttr (d : ResourceData) (ks : string * Schema) : bool :=
  match rawField ParseInt d ks.1 ks.2 with
  | Some (Some v) => hasType ks.2 v
  | Some None => true
  | None => false
  end.

(** What the framework guarantees of the [ResourceData] it hands to a
    [ConfigureFunc]: every attribute of the schema is given at its type. *)
Definition wellTyped (d : ResourceData) : bool :=
  forallb (typedAttr d) (schema d).

(** The value [d.Get(k)] returns on a well-typed block. *)
Definition attr (d : ResourceData) (k : string) : Value :=
  match lookupSchema (schema d) k with
  | Some s =>
      match readField ParseInt d k s with
      | Some r => default (Zero (SchemaType s)) r
      | None => VNil
      end
  | None => VNil
  end.

Definition attrString (d : ResourceData) (k : string) : string :=
  match attr d k with VString s => s | _ => "" end.

Definition attrInt (d : ResourceData) (k : string) : Z :=
  match attr d k with VInt n => n | _ => 0 end.

Definition attrBool (d : ResourceData) (k : string) : bool :=
  match attr d k with VBool b => b | _ => false end.

End Typing.

(** ** What [providerConfigure] assembles *)

Section Descriptor.

Variable ParseInt : string → option Z.
Variable ParseTolerant : string → Version * error.
Variable Quote : string → string.
Variable randIntn : Z → nat → Z → Z.
Variable hashSeed : string → Z.

(** The [ResourceData] of a provider block: the provider's schema, the
    attributes written in the block and the environment. *)
Definition providerData (c : gmap string Value) (env : Environ)
  : ResourceData :=
  mkResourceData (providerSchema ParseTolerant Quote) c env.

(** The error [validateExpectedVersion] reports for a string that does
    not parse. *)
Definition versionError (v : string) (err : GoError) : GoError :=
  wrapError ("invalid version (" +:+ Quote v +:+ "): " +:+ Error err) err.

(** The port drawn for the seed string made of [host] and [port]. *)
Definition tunnelPort (host : string) (port : Z) : Z :=
  1024 + randIntn (hashSeed (host +:+ fmt_d port)) 0 (65535 - 1024 + 1).

(** The world after that draw. *)
Definition afterTunnelPort (w : World) (host : string) (port : Z) : World :=
  mkWorld (hashSeed (host +:+ fmt_d port)) 1 (spawned w).

Definition stringOf (v : Value) : string :=
  match v with VString s => s | _ => "" end.

(** The certificate pair of the first [clientcert] block, when there is
    one. *)
Definition clientCertOf (v : Value) : option ClientCertificateConfig :=
  match v with
  | VList (VMap spec :: _) =>
      Some (mkClientCertificateConfig (stringOf (mapIndex spec "cert"))
              (stringOf (mapIndex spec "key")))
  | _ => None
  end.

(** The descriptor of a well-typed block, field by field. *)
Definition descriptor (ctx : Context) (d : ResourceData) : Config :=
  mkConfig
    (attrString ParseInt d "scheme")
    (attrString ParseInt d "host")
    (attrInt ParseInt d "port")
    (attrString ParseInt d "username")
    (attrString ParseInt d "password")
    (attrString ParseInt d "database_username")
    (attrBool ParseInt d "superuser")
    (if isZero TypeString (attr ParseInt d "sslmode")
     then attrString ParseInt d "ssl_mode"
     else attrString ParseInt d "sslmode")
    "Terraform provider"
    (attrInt ParseInt d "connect_timeout")
    (attrInt ParseInt d "max_connections")
    (ParseTolerant (attrString ParseInt d "expected_version")).1
    (attrString ParseInt d "sslrootcert")
    (attrString ParseInt d "jumphost")
    (tunnelPort (attrString ParseInt d "host") (attrInt ParseInt d "port"))
    (attrString ParseInt d "password_command")
    ctx
    (clientCertOf (attr ParseInt d "clientcert")).

End Descriptor.

(** ** Sample collaborators

    Small executable stand-ins for the libraries and for the operating
    system, used to run the definitions above on closed inputs. *)

Module Sample.

Definition digit (c : Ascii.ascii) : option Z :=
  let n := Z.of_nat (Ascii.nat_of_ascii c) in
  if decide (48 ≤ n ≤ 57) then Some (n - 48) else None.

Fixpoint digits (s : string) (acc : Z) : option Z :=
  match s with
  | "" => Some acc
  | String c rest =>
      match digit c with
      | Some n => digits rest (10 * acc + n)
      | None => None
      end
  end.

(** An unsigned decimal number. *)
Definition number (s : string) : option Z :=
  match s with
  | "" => None
  | _ => digits s 0
  end.

(** A decimal integer with an optional minus sign, for [strconv.ParseInt]. *)
Definition ParseInt (s : string) : option Z :=
  match s with
  | String c rest =>
      if decide (c = Ascii.ascii_of_nat 45) then Z.opp <$> number rest
      else number s
  | "" => None
  end.

(** The fields of [s] between dots. *)
Fixpoint fields (s : string) (cur : string) : list string :=
  match s with
  | "" => [cur]
  | String c rest =>
      if decide (c = Ascii.ascii_of_nat 46) then cur :: fields rest ""
      else fields rest (cur +:+ String c "")
  end.

(** Dotted decimal versions with one to three components, the missing ones
    taken as 0, for [semver.ParseTolerant]; anything else is an error and
    gives the zero version. *)
Definition ParseTolerant (s : string) : Version * error :=
  match mapM number (fields s "") with
  | Some [a] => (mkVersion a 0 0 [] [], None)
  | Some [a; b] => (mkVersion a b 0 [] [], None)
  | Some [a; b; c] => (mkVersion a b c [] [], None)
  | _ => (mkVersion 0 0 0 [] [],
          Some (errorString ("Invalid character(s) found in version " +:+ s)))
  end.

(** The string between double quotes, for [strconv.Quote]. *)
Definition Quote (s : string) : string :=
  let dq := String (Ascii.ascii_of_nat 34) "" in dq +:+ s +:+ dq.

(** The sum of the bytes of the seed string. *)
Fixpoint hashSeed (s : string) : Z :=
  match s with
  | "" => 0
  | String c rest => Z.of_nat (Ascii.nat_of_ascii c) + hashSeed rest
  end.

(** A linear congruential generator reduced to [0 .. n-1]. *)
Definition randIntn (seed : Z) (k : nat) (n : Z) : Z :=
  ((1103515245 * (seed + Z.of_nat k) + 12345) mod 2147483648) mod n.

(** An operating system with three commands: [pass] prints a secret and a
    line feed, [fail] writes to both streams and exits with status 1, and
    nothing else can be started. *)
Definition exec (ctx : Context) (command : string) (args : list string)
  : RunResult :=
  if decide (command = "pass") then
    mkRunResult ("secret" +:+ newline) "" (Exited 0)
  else if decide (command = "fail") then
    mkRunResult "partial" "permission denied" (Exited 1)
  else
    mkRunResult "" ""
      (StartFailed (errorString "executable file not found in $PATH")).

Definition env0 : Environ := λ _, "".

(** A world early in the life of the process. *)
Definition w0 : World := mkWorld 42 0 [].

(** [sslmode] set to the empty string next to the deprecated attribute. *)
Definition sslmodeEmpty : gmap string Value :=
  list_to_map [("sslmode", VString ""); ("ssl_mode", VString "require")].

(** Both SSL mode attributes set. *)
Definition sslmodeBoth : gmap string Value :=
  list_to_map [("sslmode", VString "verify-full");
               ("ssl_mode", VString "disable")].

(** An environment that sets [PGCONNECT_TIMEOUT] only. *)
Definition envTimeout : Environ :=
  λ k, if decide (k = "PGCONNECT_TIMEOUT") then "30" else "".

Definition versionBad : gmap string Value :=
  list_to_map [("expected_version", VString "not-a-version")].

Definition versionShort : gmap string Value :=
  list_to_map [("expected_version", VString "12.3")].

(** Two blocks whose host and port differ but concatenate to ["a11"]. *)
Definition hostA1 : gmap string Value :=
  list_to_map [("host", VString "a1"); ("port", VInt 1)].

Definition hostA : gmap string Value :=
  list_to_map [("host", VString "a"); ("port", VInt 11)].


Definition passwordCommandOnly : gmap string Value :=
  list_to_map [("password_command", VString "pass")].

End Sample.

(** ** More sample blocks *)

Module Blocks.

(** An environment that names a host, a user, a port and a superuser flag. *)
Definition envServer : Environ :=
  λ k, if decide (k = "PGHOST") then "db.internal"
       else if decide (k = "PGUSER") then "admin"
       else if decide (k = "PGPORT") then "6432"
       else if decide (k = "PGSUPERUSER") then "false"
       else "".

(** A block that sets the user name to the empty string and the timeout. *)
Definition userEmpty : gmap string Value :=
  list_to_map [("username", VString ""); ("connect_timeout", VInt 5)].

(** A scheme in the wrong case. *)
Definition schemeCapital : gmap string Value :=
  list_to_map [("scheme", VString "Postgres")].

Definition timeoutTooLow : gmap string Value :=
  list_to_map [("connect_timeout", VInt (-2))].

Definition connectionsUnlimited : gmap string Value :=
  list_to_map [("max_connections", VInt (-1))].

Definition certificate : gmap string Value :=
  list_to_map
    [("clientcert",
      VList [VMap (list_to_map [("cert", VString "/etc/ssl/client.crt");
                                ("key", VString "/etc/ssl/client.key")])])].

(** A [clientcert] block whose two paths are empty. *)
Definition certificateEmpty : gmap string Value :=
  list_to_map
    [("clientcert",
      VList [VMap (list_to_map [("cert", VString ""); ("key", VString "")])])].

End Blocks.

(** * Properties *)

(** ** Strings *)

Lemma append_assoc (a b c : string) : (a +:+ b) +:+ c = a +:+ b +:+ c.
Proof.
  induction a as [|x a IH]; [reflexivity|].
  change (String x ((a +:+ b) +:+ c) = String x (a +:+ b +:+ c)).
  by rewrite IH.
Qed.

Lemma append_nil_r (a : string) : a +:+ "" = a.
Proof.
  induction a as [|x a IH]; [reflexivity|].
  change (String x (a +:+ "") = String x a). by rewrite IH.
Qed.

Lemma Contains_refl (s : string) : Contains s s.
Proof. exists "", "". by rewrite append_nil_r. Qed.

Lemma Contains_app_r (a m s : string) : Contains m s → Contains (a +:+ m) s.
Proof.
  intros (p & q & ->). exists (a +:+ p), q. by rewrite append_assoc.
Qed.

Lemma Contains_app_l (m b s : string) : Contains m s → Contains (m +:+ b) s.
Proof.
  intros (p & q & ->). exists p, (q +:+ b). by rewrite !append_assoc.
Qed.

Lemma Contains_head (s q : string) : Contains (s +:+ q) s.
Proof. apply Contains_app_l, Contains_refl. Qed.

Lemma Contains_trans (m s t : string) :
  Contains m s → Contains s t → Contains m t.
Proof.
  intros (p & q & ->) (p' & q' & ->).
  exists (p +:+ p'), (q' +:+ q). by rewrite !append_assoc.
Qed.

(** Every element of a joined list is a substring of the result. *)
Lemma Contains_Join (elems : list string) (sep a : string) :
  a ∈ elems → Contains (Join elems sep) a.
Proof.
  induction elems as [|b rest IH]; intros Hin; [by apply elem_of_nil in Hin|].
  apply elem_of_cons in Hin as [->|Hin].
  - destruct rest; [apply Contains_refl | apply Contains_head].
  - destruct rest as [|c rest]; [by apply elem_of_nil in Hin|].
    change (Contains (b +:+ sep +:+ Join (c :: rest) sep) a).
    by apply Contains_app_r, Contains_app_r, IH.
Qed.

Create HintDb contains.

#[local] Hint Resolve Contains_refl Contains_head Contains_app_r
  Contains_app_l : contains.

(** ** The process executor *)

(** C3: when the run fails (the child exits with a status other than 0,
    cannot be started, or the context is done), [getCommandOutput] returns
    the empty string and an error whose message contains the command name,
    the argument list as a whole and each argument, everything captured
    from standard output and from standard error, and the message of the
    failure, which the error also wraps. *)
Theorem getCommandOutput_failure
    (exec : Context → string → list string → RunResult)
    (ctx : Context) (command : string) (args : list string) (w : World) :
  failedRun (Status (exec ctx command args)) →
  ∃ cause e,
    runErr (Status (exec ctx command args)) = Some cause
    ∧ getCommandOutput exec ctx command args w
      = Returned ("", Some e) (afterSpawn w command args)
    ∧ Contains (Error e) command
    ∧ Contains (Error e) (fmt_v args)
    ∧ (∀ a, a ∈ args → Contains (Error e) a)
    ∧ Contains (Error e) (Stdout (exec ctx command args))
    ∧ Contains (Error e) (Stderr (exec ctx command args))
    ∧ Contains (Error e) (Error cause)
    ∧ Unwrap e = Some cause.
Proof.
  intros Hfail.
  assert (∃ cause, runErr (Status (exec ctx command args)) = Some cause)
    as [cause Hcause].
  { destruct (Status (exec ctx command args)) as [code| |]; simpl in *; eauto.
    destruct code; [done | eauto | eauto]. }
  exists cause. eexists. split; [done|].
  split.
  { unfold getCommandOutput, mbind, Go_bind, cmdRun. rewrite Hcause.
    reflexivity. }
  simpl.
  assert (Contains (fmt_v args +:+ " stdout " +:+
                    Stdout (exec ctx command args) +:+ " stderr " +:+
                    Stderr (exec ctx command args) +:+ " " +:+ Error cause)
                   (fmt_v args)) as Hargs by auto with contains.
  repeat split.
  - auto with contains.
  - auto 10 with contains.
  - intros a Ha. apply Contains_app_r, Contains_app_r, Contains_app_r.
    eapply Contains_trans; [exact Hargs|].
    unfold fmt_v. by apply Contains_app_r, Contains_app_l, Contains_Join.
  - auto 10 with contains.
  - auto 12 with contains.
  - auto 14 with contains.
Qed.

Lemma getCommandOutput_failure_witness :
  failedRun (Status (Sample.exec Background "fail" ["-v"; "now"]))
  ∧ ∃ cause e,
      runErr (Status (Sample.exec Background "fail" ["-v"; "now"])) = Some cause
      ∧ getCommandOutput Sample.exec Background "fail" ["-v"; "now"] Sample.w0
        = Returned ("", Some e) (afterSpawn Sample.w0 "fail" ["-v"; "now"])
      ∧ Contains (Error e) "fail"
      ∧ Contains (Error e) (fmt_v ["-v"; "now"])
      ∧ (∀ a, a ∈ ["-v"; "now"] → Contains (Error e) a)
      ∧ Contains (Error e)
          (Stdout (Sample.exec Background "fail" ["-v"; "now"]))
      ∧ Contains (Error e)
          (Stderr (Sample.exec Background "fail" ["-v"; "now"]))
      ∧ Contains (Error e) (Error cause)
      ∧ Unwrap e = Some cause.
Proof.
  split; [vm_compute; discriminate|].
  apply (getCommandOutput_failure Sample.exec Background "fail" ["-v"; "now"]
           Sample.w0).
  vm_compute; discriminate.
Defined.

(** ** Computations that return without touching the world *)

Lemma returns_mret {A : Type} (a : A) : returns (mret a) a.
Proof. by intros w. Qed.

Lemma bind_returns {A B : Type} (m : Go A) (f : A → Go B) (a : A)
    (w : World) :
  returns m a → (m ≫= f) w = f a w.
Proof. intros H. unfold mbind, Go_bind. by rewrite H. Qed.

Lemma returns_bind {A B : Type} (m : Go A) (f : A → Go B) (a : A) (b : B) :
  returns m a → returns (f a) b → returns (m ≫= f) b.
Proof. intros Hm Hf w. by rewrite (bind_returns _ _ _ _ Hm). Qed.

(** ** Reading a well-typed block *)

Lemma lookupSchema_elem (sm : schemaMap) (k : string) (s : Schema) :
  lookupSchema sm k = Some s → (k, s) ∈ sm.
Proof.
  induction sm as [|[k' s'] rest IH]; simpl; [done|].
  case_decide as Hk.
  - intros [= ->]. subst. apply list_elem_of_here.
  - intros H. by apply list_elem_of_further, IH.
Qed.

Section Reading.

Variable ParseInt : string → option Z.
Variable d : ResourceData.
Hypothesis Hd : wellTyped ParseInt d = true.

Lemma wellTyped_attr (k : string) (s : Schema) :
  lookupSchema (schema d) k = Some s →
  match rawField ParseInt d k s with
  | Some (Some v) => hasType s v = true
  | Some None => True
  | None => False
  end.
Proof.
  intros Hk%lookupSchema_elem%list_elem_of_In.
  unfold wellTyped in Hd. rewrite forallb_forall in Hd.
  specialize (Hd _ Hk). unfold typedAttr in Hd. simpl in Hd.
  by destruct (rawField ParseInt d k s) as [[v|]|].
Qed.

(** A field that is given is read, possibly in another form. *)
Lemma readField_raw (k : string) (s : Schema) :
  readField ParseInt d k s
  = match rawField ParseInt d k s with
    | Some (Some v) =>
        match config d !! k with
        | Some _ => Some (Some (readConfigured s v))
        | None => Some (Some v)
        end
    | r => r
    end.
Proof.
  unfold readField, rawField. destruct (config d !! k) as [v|]; [done|].
  destruct (DefaultValue s (environ d)) as [dv|]; [|done].
  by destruct (toPrimitive ParseInt dv (SchemaType s)).
Qed.

Lemma readConfigured_primitive (s : Schema) (v : Value) :
  SchemaType s ≠ TypeList → readConfigured s v = v.
Proof. unfold readConfigured. by destruct (SchemaType s). Qed.

Lemma Get_returns (k : string) (s : Schema) :
  lookupSchema (schema d) k = Some s →
  returns (Get ParseInt d k) (attr ParseInt d k).
Proof.
  intros Hk w. pose proof (wellTyped_attr k s Hk) as Ht.
  unfold Get, attr. rewrite Hk, readField_raw.
  destruct (rawField ParseInt d k s) as [[v|]|]; [|done..].
  by destruct (config d !! k).
Qed.

Lemma GetOk_returns (k : string) (s : Schema) :
  lookupSchema (schema d) k = Some s →
  returns (GetOk ParseInt d k)
    (attr ParseInt d k, negb (isZero (SchemaType s) (attr ParseInt d k))).
Proof.
  intros Hk w. pose proof (wellTyped_attr k s Hk) as Ht.
  unfold GetOk, attr. rewrite Hk, readField_raw.
  destruct (rawField ParseInt d k s) as [[v|]|]; [| |done].
  - by destruct (config d !! k).
  - simpl. by destruct (SchemaType s).
Qed.

(** A primitive attribute reads at the type of its schema. *)
Lemma attr_typed (k : string) (s : Schema) :
  lookupSchema (schema d) k = Some s →
  SchemaType s ≠ TypeList →
  primitiveTyped (SchemaType s) (attr ParseInt d k) = true.
Proof.
  intros Hk Hprim. pose proof (wellTyped_attr k s Hk) as Ht.
  unfold attr. rewrite Hk, readField_raw.
  destruct (rawField ParseInt d k s) as [[v|]|]; [| |done].
  - assert (primitiveTyped (SchemaType s) v = true) as Hv.
    { unfold hasType in Ht. by destruct (SchemaType s). }
    destruct (config d !! k); [|done].
    by rewrite readConfigured_primitive.
  - simpl. by destruct (SchemaType s).
Qed.

Lemma GetString_returns (k : string) (s : Schema) :
  lookupSchema (schema d) k = Some s →
  SchemaType s = TypeString →
  returns (Get ParseInt d k ≫= assertString) (attrString ParseInt d k).
Proof.
  intros Hk Ht. eapply returns_bind; [by eapply Get_returns|].
  pose proof (attr_typed k s Hk) as Hty.
  rewrite Ht in Hty. specialize (Hty ltac:(done)). unfold attrString.
  by destruct (attr ParseInt d k).
Qed.

Lemma GetInt_returns (k : string) (s : Schema) :
  lookupSchema (schema d) k = Some s →
  SchemaType s = TypeInt →
  returns (Get ParseInt d k ≫= assertInt) (attrInt ParseInt d k).
Proof.
  intros Hk Ht. eapply returns_bind; [by eapply Get_returns|].
  pose proof (attr_typed k s Hk) as Hty.
  rewrite Ht in Hty. specialize (Hty ltac:(done)). unfold attrInt.
  by destruct (attr ParseInt d k).
Qed.

Lemma GetBool_returns (k : string) (s : Schema) :
  lookupSchema (schema d) k = Some s →
  SchemaType s = TypeBool →
  returns (Get ParseInt d k ≫= assertBool) (attrBool ParseInt d k).
Proof.
  intros Hk Ht. eapply returns_bind; [by eapply Get_returns|].
  pose proof (attr_typed k s Hk) as Hty.
  rewrite Ht in Hty. specialize (Hty ltac:(done)). unfold attrBool.
  by destruct (attr ParseInt d k).
Qed.

End Reading.

(** ** [providerConfigure] on a well-typed block *)

Lemma returns_nonempty_or_empty (x : string) :
  returns (if decide (x ≠ "") then mret x else mret "") x.
Proof.
  intros w. case_decide as Hx; [done|].
  destruct (decide (x = "")) as [->|]; [done | contradiction].
Qed.

Section Assembly.

Variable ParseInt : string → option Z.
Variable ParseTolerant : string → Version * error.
Variable Quote : string → string.
Variable randIntn : Z → nat → Z → Z.
Variable hashSeed : string → Z.

Variable c : gmap string Value.
Variable env : Environ.

Let d : ResourceData := providerData ParseTolerant Quote c env.

Hypothesis Hd : wellTyped ParseInt d = true.

Lemma getRandomPort_bind {B : Type} (seed : string) (f : Z → Go B)
    (w : World) :
  (getRandomPort randIntn hashSeed seed ≫= f) w
  = f (1024 + randIntn (hashSeed seed) 0 (65535 - 1024 + 1))
      (mkWorld (hashSeed seed) 1 (spawned w)).
Proof. reflexivity. Qed.

Lemma assertString_attr (k : string) (s : Schema) :
  lookupSchema (schema d) k = Some s →
  SchemaType s = TypeString →
  returns (assertString (attr ParseInt d k)) (attrString ParseInt d k).
Proof.
  intros Hk Ht. pose proof (attr_typed ParseInt d Hd k s Hk) as Hty.
  rewrite Ht in Hty. specialize (Hty ltac:(done)). unfold attrString.
  by destruct (attr ParseInt d k).
Qed.

(** The certificate step of [providerConfigure]. *)
Lemma clientcert_returns (config : Config) (v : Value) (s : Schema) :
  lookupSchema (schema d) "clientcert" = Some s →
  v = attr ParseInt d "clientcert" →
  returns
    (if negb (isZero TypeList v) then
       l ← assertList v;
       first ← index0 l;
       match first with
       | VMap spec =>
           cert ← assertString (mapIndex spec "cert");
           key ← assertString (mapIndex spec "key");
           mret (withSSLClientCert config
                   (mkClientCertificateConfig cert key))
       | _ => mret config
       end
     else mret config)
    (match clientCertOf v with
     | Some cc => withSSLClientCert config cc
     | None => config
     end).
Proof.
  intros Hk -> w.
  pose proof (wellTyped_attr ParseInt d Hd _ _ Hk) as Hty.
  unfold attr. rewrite Hk. injection Hk as <-.
  unfold readField, rawField in *.
  destruct (_ !! "clientcert") as [v|]; [|done].
  unfold hasType in Hty. simpl in Hty.
  destruct v as [| | | |l|]; try done.
  destruct l as [|first rest]; [done|].
  apply andb_prop in Hty as [_ Hty]. simpl in Hty.
  apply andb_prop in Hty as [Hfirst _].
  destruct first as [| | | | |spec]; try done.
  simpl in Hfirst.
  destruct (spec !! "cert") as [[| | |cert| |]|] eqn:Hcert; try done.
  destruct (spec !! "key") as [[| | |key| |]|] eqn:Hkey; try done.
  cbn [default readConfigured SchemaType Elem fmap list_fmap readBlock
       fst snd ElemType Zero].
  rewrite Hcert, Hkey. cbn [default].
  destruct cert, key; vm_compute; reflexivity.
Qed.

Ltac read :=
  first
    [ erewrite bind_returns
        by (eapply GetString_returns; [exact Hd | reflexivity | reflexivity])
    | erewrite bind_returns
        by (eapply GetInt_returns; [exact Hd | reflexivity | reflexivity])
    | erewrite bind_returns
        by (eapply GetBool_returns; [exact Hd | reflexivity | reflexivity])
    | erewrite bind_returns
        by (eapply GetOk_returns; [exact Hd | reflexivity]) ];
  cbv beta iota.

(** [providerConfigure] returns the client of [descriptor] with a [nil]
    error, having reseeded the generator and drawn once from it. *)
Lemma providerConfigure_returns (ctx : Context) (w : World) :
  providerConfigure ParseInt ParseTolerant randIntn hashSeed ctx d w
  = Returned
      (NewClient (descriptor ParseInt ParseTolerant randIntn hashSeed ctx d)
         (attrString ParseInt d "database"), None)
      (afterTunnelPort hashSeed w (attrString ParseInt d "host")
         (attrInt ParseInt d "port")).
Proof.
  unfold providerConfigure. read. simpl SchemaType.
  erewrite bind_returns; cycle 1.
  { instantiate (1 := if isZero TypeString (attr ParseInt d "sslmode")
                      then attrString ParseInt d "ssl_mode"
                      else attrString ParseInt d "sslmode").
    destruct (isZero TypeString (attr ParseInt d "sslmode")); simpl negb;
      cbv iota.
    - eapply returns_bind; [|apply returns_nonempty_or_empty].
      eapply GetString_returns; [exact Hd | reflexivity | reflexivity].
    - eapply assertString_attr; reflexivity. }
  read.
  destruct (ParseTolerant (attrString ParseInt d "expected_version"))
    as [version perr] eqn:Hparse.
  do 11 read.
  rewrite getRandomPort_bind.
  do 2 read. simpl SchemaType.
  erewrite bind_returns
    by (eapply clientcert_returns; reflexivity).
  read.
  unfold descriptor. rewrite Hparse. simpl fst.
  by destruct (attr ParseInt d "clientcert") as [| | | |[|[]]|].
Qed.

End Assembly.

(** ** Attribute values in terms of the block and the environment *)

Section Attributes.

Variable ParseInt : string → option Z.
Variable d : ResourceData.

Lemma attr_read (k : string) (s : Schema) (v : Value) :
  lookupSchema (schema d) k = Some s →
  config d !! k = Some v →
  attr ParseInt d k = readConfigured s v.
Proof. intros Hk Hc. unfold attr, readField. by rewrite Hk, Hc. Qed.

Lemma attr_configured (k : string) (s : Schema) (v : Value) :
  lookupSchema (schema d) k = Some s →
  config d !! k = Some v →
  SchemaType s ≠ TypeList →
  attr ParseInt d k = v.
Proof.
  intros Hk Hc Hprim. rewrite (attr_read k s v Hk Hc).
  by apply readConfigured_primitive.
Qed.

End Attributes.

(** The side conditions of [attr_configured] and [attr_default] at a
    given attribute of the provider's schema. *)
Ltac from_block H := first [reflexivity | exact H | done].

Section Defaults.

Variable ParseInt : string → option Z.
Variable d : ResourceData.

Lemma attr_default (k : string) (s : Schema) :
  lookupSchema (schema d) k = Some s →
  config d !! k = None →
  attr ParseInt d k
  = match DefaultValue s (environ d) with
    | Some dv => default VNil (toPrimitive ParseInt dv (SchemaType s))
    | None => Zero (SchemaType s)
    end.
Proof.
  intros Hk Hc. unfold attr, readField. rewrite Hk, Hc.
  destruct (DefaultValue s (environ d)) as [dv|]; [|done].
  by destruct (toPrimitive ParseInt dv (SchemaType s)).
Qed.

End Defaults.

(** ** SSL mode, defaults and the returned error *)

Section Configure.

Variable ParseInt : string → option Z.
Variable ParseTolerant : string → Version * error.
Variable Quote : string → string.
Variable randIntn : Z → nat → Z → Z.
Variable hashSeed : string → Z.

Ltac by_default :=
  cbv [DefaultValue attribute Default DefaultFunc SchemaType environ
       providerData EnvDefaultFunc];
  rewrite ?decide_True by done; rewrite ?decide_False by tauto;
  cbv [toPrimitive stringToPrimitive default fmap option_fmap option_map].

(** C2, as amended: the descriptor's SSL mode is the [sslmode] attribute
    whenever that attribute is set to a non-empty string, in the block or,
    when the block does not set it, by [PGSSLMODE]; otherwise, that is
    when [sslmode] is set to the empty string or is set nowhere, it is the
    deprecated [ssl_mode] attribute.  In particular [sslmode] wins when
    both are set to non-empty strings. *)
Theorem sslmode_precedence (ctx : Context) (c : gmap string Value)
    (env : Environ) (w : World) :
  wellTyped ParseInt (providerData ParseTolerant Quote c env) = true →
  ∃ client w',
    providerConfigure ParseInt ParseTolerant randIntn hashSeed ctx
      (providerData ParseTolerant Quote c env) w
    = Returned (client, None) w'
    ∧ (∀ s, c !! "sslmode" = Some (VString s) → s ≠ "" →
         SSLMode (clientConfig client) = s)
    ∧ (c !! "sslmode" = None → env "PGSSLMODE" ≠ "" →
         SSLMode (clientConfig client) = env "PGSSLMODE")
    ∧ (c !! "sslmode" = Some (VString "")
       ∨ (c !! "sslmode" = None ∧ env "PGSSLMODE" = "") →
         (∀ m, c !! "ssl_mode" = Some (VString m) →
            SSLMode (clientConfig client) = m)
         ∧ (c !! "ssl_mode" = None → SSLMode (clientConfig client) = "")).
Proof.
  intros Hd. eexists _, _.
  split; [by apply providerConfigure_returns|]. simpl.
  split; [|split].
  - intros s Hs Hne.
    erewrite (attr_configured _ _ "sslmode") by (from_block Hs).
    unfold attrString.
    erewrite (attr_configured _ _ "sslmode") by (from_block Hs).
    by destruct s.
  - intros Hs Hne.
    erewrite (attr_default _ _ "sslmode") by (reflexivity || exact Hs).
    unfold attrString.
    erewrite (attr_default _ _ "sslmode") by (reflexivity || exact Hs).
    by_default. by destruct (env "PGSSLMODE").
  - intros Hs.
    assert (attr ParseInt (providerData ParseTolerant Quote c env) "sslmode"
            = VString "") as ->.
    { destruct Hs as [Hs|[Hs He]].
      - by erewrite attr_configured by (from_block Hs).
      - erewrite attr_default by (reflexivity || exact Hs).
        by by_default. }
    simpl. unfold attrString. split.
    + intros m Hm.
      by erewrite attr_configured by (from_block Hm).
    + intros Hm. by erewrite attr_default by (reflexivity || exact Hm).
Qed.

(** C9: with [sslmode] set to the empty string, [GetOk] reports it as not
    set (the value is the zero value of its type), and the descriptor's
    SSL mode is the value of the deprecated [ssl_mode] attribute. *)
Theorem sslmode_empty_is_unset (ctx : Context) (c : gmap string Value)
    (env : Environ) (w : World) :
  wellTyped ParseInt (providerData ParseTolerant Quote c env) = true →
  c !! "sslmode" = Some (VString "") →
  GetOk ParseInt (providerData ParseTolerant Quote c env) "sslmode" w
  = Returned (VString "", false) w
  ∧ ∃ client w',
      providerConfigure ParseInt ParseTolerant randIntn hashSeed ctx
        (providerData ParseTolerant Quote c env) w
      = Returned (client, None) w'
      ∧ (∀ m, c !! "ssl_mode" = Some (VString m) →
           SSLMode (clientConfig client) = m)
      ∧ (c !! "ssl_mode" = None → SSLMode (clientConfig client) = "").
Proof.
  intros Hd Hs.
  assert (attr ParseInt (providerData ParseTolerant Quote c env) "sslmode"
          = VString "") as Hattr
    by (by erewrite attr_configured by (from_block Hs)).
  split.
  - erewrite GetOk_returns by (exact Hd || reflexivity). by rewrite Hattr.
  - eexists _, _. split; [by apply providerConfigure_returns|].
    cbn [clientConfig NewClient SSLMode descriptor]. rewrite Hattr.
    cbn [isZero]. unfold attrString. split.
    + intros m Hm. by erewrite attr_configured by (from_block Hm).
    + intros Hm. by erewrite attr_default by (reflexivity || exact Hm).
Qed.

(** C7, as amended: an attribute the block does not set takes its default:
    20 for [max_connections], the parsed ["9.0.0"] for [expected_version],
    and for [connect_timeout] 180 seconds when [PGCONNECT_TIMEOUT] is
    empty or not set. *)
Theorem default_constants (ctx : Context) (c : gmap string Value)
    (env : Environ) (w : World) :
  wellTyped ParseInt (providerData ParseTolerant Quote c env) = true →
  ∃ client w',
    providerConfigure ParseInt ParseTolerant randIntn hashSeed ctx
      (providerData ParseTolerant Quote c env) w
    = Returned (client, None) w'
    ∧ (c !! "max_connections" = None →
         MaxConns (clientConfig client) = 20)
    ∧ (c !! "expected_version" = None →
         ExpectedVersion (clientConfig client) = (ParseTolerant "9.0.0").1)
    ∧ (c !! "connect_timeout" = None → env "PGCONNECT_TIMEOUT" = "" →
         ConnectTimeoutSec (clientConfig client) = 180).
Proof.
  intros Hd. eexists _, _.
  split; [by apply providerConfigure_returns|]. simpl.
  split; [|split].
  - intros Hc. unfold attrInt.
    by erewrite attr_default by (reflexivity || exact Hc).
  - intros Hc. unfold attrString.
    by erewrite attr_default by (reflexivity || exact Hc).
  - intros Hc He. unfold attrInt.
    erewrite attr_default by (reflexivity || exact Hc).
    by by_default.
Qed.

End Configure.

(** ** The error [providerConfigure] returns *)

Lemma bind_inv {A B : Type} (m : Go A) (f : A → Go B) (w w' : World) (b : B) :
  (m ≫= f) w = Returned b w' →
  ∃ a w1, m w = Returned a w1 ∧ f a w1 = Returned b w'.
Proof.
  unfold mbind, Go_bind. destruct (m w) as [a w1|]; [eauto | done].
Qed.

Section NilError.

Variable ParseInt : string → option Z.
Variable ParseTolerant : string → Version * error.
Variable Quote : string → string.
Variable randIntn : Z → nat → Z → Z.
Variable hashSeed : string → Z.

Ltac next H :=
  let a := fresh "a" in
  let w1 := fresh "w" in
  let H1 := fresh "Hstep" in
  apply bind_inv in H as (a & w1 & H1 & H); clear H1;
  try destruct a as [? ?]; cbv beta iota in H.

(** Whatever the [ResourceData], a run of [providerConfigure] that returns
    returns a [nil] error. *)
Lemma providerConfigure_error_nil (ctx : Context) (d : ResourceData)
    (w w' : World) (client : Client) (err : error) :
  providerConfigure ParseInt ParseTolerant randIntn hashSeed ctx d w
  = Returned (client, err) w' →
  err = None.
Proof.
  unfold providerConfigure. intros H.
  repeat first [next H | destruct (ParseTolerant _) as [version perr]].
  by injection H as _ <- _.
Qed.

(** C8: [providerConfigure] has no path that returns a non-nil error, and
    on the well-typed [ResourceData] the framework hands to it it does
    return: a client, and [nil]. *)
Theorem providerConfigure_nil_error (ctx : Context) (c : gmap string Value)
    (env : Environ) (w : World) :
  (∀ d w1 w2 client err,
     providerConfigure ParseInt ParseTolerant randIntn hashSeed ctx d w1
     = Returned (client, err) w2 →
     err = None)
  ∧ (wellTyped ParseInt (providerData ParseTolerant Quote c env) = true →
     ∃ client w',
       providerConfigure ParseInt ParseTolerant randIntn hashSeed ctx
         (providerData ParseTolerant Quote c env) w
       = Returned (client, None) w').
Proof.
  split.
  - intros d w1 w2 client err. apply providerConfigure_error_nil.
  - intros Hd. eexists _, _. by apply providerConfigure_returns.
Qed.

End NilError.

(** ** The tunnel port *)

Section Tunnel.

Variable ParseInt : string → option Z.
Variable ParseTolerant : string → Version * error.
Variable Quote : string → string.
Variable randIntn : Z → nat → Z → Z.
Variable hashSeed : string → Z.

(** [rand.Intn(n)] is in [[0,n)]. *)
Hypothesis randIntn_range :
  ∀ seed k n, 0 < n → 0 ≤ randIntn seed k n < n.

Lemma tunnelPort_range (host : string) (port : Z) :
  1024 ≤ tunnelPort randIntn hashSeed host port ≤ 65535.
Proof.
  unfold tunnelPort.
  pose proof (randIntn_range (hashSeed (host +:+ fmt_d port)) 0
                (65535 - 1024 + 1)).
  lia.
Qed.

(** C6: the port [getRandomPort] derives is in [[1024, 65535]] whatever
    the seed string and the state of the process, and so is the tunnel
    port of an assembled descriptor; two assemblies in the same process, in
    whatever states of its generator, that read the same host and port get
    the same tunnel port, in particular two assemblies that follow [init]
    one after the other. *)
Theorem tunnel_port_range_and_repeatable (ctx1 ctx2 : Context)
    (c1 c2 : gmap string Value) (env1 env2 : Environ) (w1 w2 : World)
    (now : Z) :
  wellTyped ParseInt (providerData ParseTolerant Quote c1 env1) = true →
  wellTyped ParseInt (providerData ParseTolerant Quote c2 env2) = true →
  (∀ seed w, ∃ p w',
     getRandomPort randIntn hashSeed seed w = Returned p w'
     ∧ 1024 ≤ p ≤ 65535)
  ∧ (∃ client1 client2 w1' w2',
       providerConfigure ParseInt ParseTolerant randIntn hashSeed ctx1
         (providerData ParseTolerant Quote c1 env1) w1
       = Returned (client1, None) w1'
       ∧ providerConfigure ParseInt ParseTolerant randIntn hashSeed ctx2
           (providerData ParseTolerant Quote c2 env2) w2
         = Returned (client2, None) w2'
       ∧ 1024 ≤ TunneledPort (clientConfig client1) ≤ 65535
       ∧ 1024 ≤ TunneledPort (clientConfig client2) ≤ 65535
       ∧ (Host (clientConfig client1) = Host (clientConfig client2) →
          Port (clientConfig client1) = Port (clientConfig client2) →
          TunneledPort (clientConfig client1)
          = TunneledPort (clientConfig client2)))
  ∧ ∃ client1 client2 w',
      (_ ← init now;
       first ← providerConfigure ParseInt ParseTolerant randIntn hashSeed
                 ctx1 (providerData ParseTolerant Quote c1 env1);
       second ← providerConfigure ParseInt ParseTolerant randIntn hashSeed
                  ctx2 (providerData ParseTolerant Quote c2 env2);
       mret (first, second)) w1
      = Returned ((client1, None), (client2, None)) w'
      ∧ (Host (clientConfig client1) = Host (clientConfig client2) →
         Port (clientConfig client1) = Port (clientConfig client2) →
         TunneledPort (clientConfig client1)
         = TunneledPort (clientConfig client2)).
Proof.
  intros Hd1 Hd2. split; [|split].
  - intros seed w.
    exists (1024 + randIntn (hashSeed seed) 0 (65535 - 1024 + 1)),
      (mkWorld (hashSeed seed) 1 (spawned w)).
    split; [reflexivity|].
    pose proof (randIntn_range (hashSeed seed) 0 (65535 - 1024 + 1)). lia.
  - eexists _, _, _, _.
    split; [by apply providerConfigure_returns|].
    split; [by apply providerConfigure_returns|].
    simpl. split; [apply tunnelPort_range|].
    split; [apply tunnelPort_range|].
    by intros -> ->.
  - eexists _, _, _. split.
    + unfold mbind, Go_bind, init, rand_Seed.
      rewrite (providerConfigure_returns _ _ Quote _ _ c1 env1 Hd1).
      by rewrite (providerConfigure_returns _ _ Quote _ _ c2 env2 Hd2).
    + simpl. by intros -> ->.
Qed.

End Tunnel.

Section Seed.

Variable ParseInt : string → option Z.
Variable ParseTolerant : string → Version * error.
Variable Quote : string → string.
Variable randIntn : Z → nat → Z → Z.
Variable hashSeed : string → Z.

(** C10: the generator is seeded from the host string followed by the
    port in decimal, with nothing in between, so two blocks for which
    these concatenations are the same string get the same tunnel port,
    even when their hosts and ports differ. *)
Theorem tunnel_port_seed_concatenation (ctx1 ctx2 : Context)
    (c1 c2 : gmap string Value) (env1 env2 : Environ) (w1 w2 : World) :
  wellTyped ParseInt (providerData ParseTolerant Quote c1 env1) = true →
  wellTyped ParseInt (providerData ParseTolerant Quote c2 env2) = true →
  ∃ client1 client2 w1' w2',
    providerConfigure ParseInt ParseTolerant randIntn hashSeed ctx1
      (providerData ParseTolerant Quote c1 env1) w1
    = Returned (client1, None) w1'
    ∧ providerConfigure ParseInt ParseTolerant randIntn hashSeed ctx2
        (providerData ParseTolerant Quote c2 env2) w2
      = Returned (client2, None) w2'
    ∧ randSeed w1'
      = hashSeed (Host (clientConfig client1)
                  +:+ fmt_d (Port (clientConfig client1)))
    ∧ randSeed w2'
      = hashSeed (Host (clientConfig client2)
                  +:+ fmt_d (Port (clientConfig client2)))
    ∧ (Host (clientConfig client1) +:+ fmt_d (Port (clientConfig client1))
       = Host (clientConfig client2) +:+ fmt_d (Port (clientConfig client2)) →
       TunneledPort (clientConfig client1)
       = TunneledPort (clientConfig client2)).
Proof.
  intros Hd1 Hd2. eexists _, _, _, _.
  split; [by apply providerConfigure_returns|].
  split; [by apply providerConfigure_returns|].
  simpl. split; [done|]. split; [done|].
  unfold tunnelPort. by intros ->.
Qed.

End Seed.

(** ** The password *)

Lemma trimLineTerminator_newline (s : string) :
  trimLineTerminator (s +:+ newline) = s.
Proof.
  induction s as [|c s IH]; [reflexivity|].
  change (trimLineTerminator (String c (s +:+ newline)) = String c s).
  destruct s as [|c' s]; [reflexivity|].
  change (String c (trimLineTerminator (String c' s +:+ newline))
          = String c (String c' s)).
  by rewrite IH.
Qed.

Section Supplied.

Variable ParseInt : string → option Z.


Lemma GetOkExists_unset (d : ResourceData) (k : string) (s : Schema) :
  lookupSchema (schema d) k = Some s →
  config d !! k = None →
  DefaultValue s (environ d) = None →
  returns (GetOkExists ParseInt d k) (Zero (SchemaType s), false).
Proof.
  intros Hk Hc Hdv w. unfold GetOkExists, readField.
  by rewrite Hk, Hc, Hdv.
Qed.

End Supplied.

Section Passwords.

Variable ParseInt : string → option Z.
Variable ParseTolerant : string → Version * error.
Variable Quote : string → string.
Variable randIntn : Z → nat → Z → Z.
Variable hashSeed : string → Z.
Variable exec : Context → string → list string → RunResult.


End Passwords.

Section PasswordCommands.

Variable ParseInt : string → option Z.
Variable ParseTolerant : string → Version * error.
Variable Quote : string → string.
Variable exec : Context → string → list string → RunResult.

(** C4: with no static password, a password-command that exits with
    status 0 after writing [out] and a line feed to its standard output
    gives [out] as the password: [getCommandOutput] returns the output as
    written, and the resolution removes the trailing line feed. *)
Theorem password_command_output_trimmed (ctx : Context)
    (c : gmap string Value) (env : Environ) (w : World)
    (command out : string) :
  wellTyped ParseInt (providerData ParseTolerant Quote c env) = true →
  c !! "password" = None →
  env "PGPASSWORD" = "" →
  c !! "password_command" = Some (VString command) →
  command ≠ "" →
  Status (exec ctx command []) = Exited 0 →
  Stdout (exec ctx command []) = out +:+ newline →
  getCommandOutput exec ctx command [] w
  = Returned (out +:+ newline, None) (afterSpawn w command [])
  ∧ resolvePassword ParseInt exec ctx
      (providerData ParseTolerant Quote c env) w
    = Returned (out, None) (afterSpawn w command []).
Proof.
  intros Hd Hp He Hc Hne Hst Hout.
  assert (getCommandOutput exec ctx command [] w
          = Returned (out +:+ newline, None) (afterSpawn w command []))
    as Hrun.
  { unfold getCommandOutput, mbind, Go_bind, cmdRun.
    by rewrite Hst, Hout. }
  split; [done|].
  unfold resolvePassword.
  erewrite bind_returns; cycle 1.
  { eapply GetOkExists_unset; [reflexivity | exact Hp |].
    cbv [DefaultValue attribute Default DefaultFunc environ providerData
         EnvDefaultFunc].
    by rewrite decide_False by tauto. }
  cbv beta iota.
  erewrite bind_returns
    by (eapply GetString_returns; [exact Hd | reflexivity | reflexivity]).
  unfold attrString.
  erewrite (attr_configured _ _ "password_command")
    by (from_block Hc).
  rewrite decide_True by done.
  unfold mbind at 1, Go_bind at 1. rewrite Hrun.
  by rewrite trimLineTerminator_newline.
Qed.

End PasswordCommands.

(** ** Validation of the block *)

Lemma returns_unique {A : Type} (m : Go A) (a b : A) :
  returns m a → returns m b → a = b.
Proof.
  intros Ha Hb. specialize (Ha (mkWorld 0 0 [])).
  rewrite (Hb (mkWorld 0 0 [])) in Ha. by injection Ha.
Qed.

Section Validation.

Variable ParseInt : string → option Z.

(** Validation of a well-typed attribute returns, and leaves the world
    alone, as soon as its [ValidateFunc] does so on values of its type. *)
Lemma validateAttr_quiet (d : ResourceData) (k : string) (s : Schema) :
  wellTyped ParseInt d = true →
  lookupSchema (schema d) k = Some s →
  Default s = None ∨ DefaultFunc s = None →
  (∀ f v, ValidateFunc s = Some f → hasType s v = true →
     ∃ r, returns (f v k) r) →
  ∃ es, returns (validateAttr ParseInt d k s) es.
Proof.
  intros Hd Hk Hdf Hf. pose proof (wellTyped_attr ParseInt d Hd k s Hk) as Ht.
  unfold validateAttr. unfold rawField, DefaultValue in Ht.
  assert (∀ v, hasType s v = true →
            toPrimitive ParseInt v (SchemaType s) = Some v) as Hprim.
  { intros v Hv. unfold hasType in Hv.
    destruct v; try done. by destruct (SchemaType s). }
  assert (∀ v, hasType s v = true →
            ∃ es, returns
                    match ValidateFunc s with
                    | Some f => '(_, es) ← f v k; mret es
                    | None => mret []
                    end es) as Hrun.
  { intros v Hv. destruct (ValidateFunc s) as [f|] eqn:Hvf.
    - destruct (Hf f v eq_refl Hv) as [[ws es] Hr]. exists es.
      eapply returns_bind; [exact Hr | apply returns_mret].
    - eexists. apply returns_mret. }
  destruct (config d !! k) as [v|].
  - rewrite (Hprim v Ht). by apply Hrun.
  - destruct (DefaultFunc s) as [g|]; [|eexists; apply returns_mret].
    destruct Hdf as [Hdf|Hdf]; [|done]. rewrite Hdf in Ht.
    destruct (g (environ d)) as [dv|]; [|eexists; apply returns_mret].
    destruct (toPrimitive ParseInt dv (SchemaType s)) as [v|]; [|done].
    simpl in Ht. by apply Hrun.
Qed.

Lemma validateAll_returns (d : ResourceData) (sm : schemaMap) :
  Forall (λ ks, ∃ es, returns (validateAttr ParseInt d ks.1 ks.2) es) sm →
  ∃ es,
    returns (validateAll ParseInt d sm) es
    ∧ ∀ ks es' e,
        ks ∈ sm → returns (validateAttr ParseInt d ks.1 ks.2) es' →
        e ∈ es' → e ∈ es.
Proof.
  induction 1 as [|[k s] rest [es1 H1] _ (es2 & H2 & Hin)].
  - exists []. split; [apply returns_mret|]. intros ks es' e Hks.
    by apply elem_of_nil in Hks.
  - exists (es1 ++ es2)%list. split.
    + simpl. eapply returns_bind; [exact H1|].
      eapply returns_bind; [exact H2 | apply returns_mret].
    + intros ks es' e [->|Hks]%elem_of_cons Hr He; apply elem_of_app.
      * left. simpl in Hr. by rewrite (returns_unique _ _ _ H1 Hr).
      * right. by eapply Hin.
Qed.

Lemma validateAll_ext (d d' : ResourceData) (sm : schemaMap) :
  Forall (λ ks, ∀ w, validateAttr ParseInt d ks.1 ks.2 w
                     = validateAttr ParseInt d' ks.1 ks.2 w) sm →
  ∀ w, validateAll ParseInt d sm w = validateAll ParseInt d' sm w.
Proof.
  induction 1 as [|[k s] rest H1 _ IH]; intros w; [done|].
  simpl in *. unfold mbind, Go_bind. rewrite H1.
  destruct (validateAttr ParseInt d' k s w) as [es w1|]; [|done].
  by rewrite IH.
Qed.

Lemma StringInSlice_quiet (valid : list string) (v : Value) (k : string) :
  ∃ r, returns (StringInSlice valid v k) r.
Proof.
  destruct v; simpl; try (eexists; apply returns_mret).
  case_bool_decide; eexists; apply returns_mret.
Qed.

Lemma IntAtLeast_quiet (min : Z) (v : Value) (k : string) :
  ∃ r, returns (IntAtLeast min v k) r.
Proof.
  destruct v; simpl; try (eexists; apply returns_mret).
  case_decide; eexists; apply returns_mret.
Qed.

End Validation.

Section VersionGate.

Variable ParseInt : string → option Z.
Variable ParseTolerant : string → Version * error.
Variable Quote : string → string.
Variable randIntn : Z → nat → Z → Z.
Variable hashSeed : string → Z.

Lemma validateExpectedVersion_quiet (v : Value) (k : string) :
  primitiveTyped TypeString v = true →
  ∃ r, returns (validateExpectedVersion ParseTolerant Quote v k) r.
Proof.
  destruct v as [| | |s| |]; try done. intros _.
  unfold validateExpectedVersion.
  destruct (ParseTolerant s).2 as [err|] eqn:Hs; eexists; intros w;
    unfold mbind, Go_bind; simpl; by rewrite Hs.
Qed.

(** Validation of a well-typed provider block never panics. *)
Lemma provider_validation_quiet (c : gmap string Value) (env : Environ) :
  wellTyped ParseInt (providerData ParseTolerant Quote c env) = true →
  Forall (λ ks, ∃ es,
            returns (validateAttr ParseInt
                       (providerData ParseTolerant Quote c env) ks.1 ks.2) es)
    (providerSchema ParseTolerant Quote).
Proof.
  intros Hd. unfold providerSchema.
  repeat apply List.Forall_cons; try apply List.Forall_nil; cbn [fst snd];
    (eapply validateAttr_quiet;
     [ exact Hd | reflexivity | (by left) || (by right) | ]);
    intros f v [= <-] Hv;
    first [ apply StringInSlice_quiet | apply IntAtLeast_quiet
          | by apply validateExpectedVersion_quiet ].
Qed.

Lemma validateAttr_version_rejected (c : gmap string Value) (env : Environ)
    (v : string) (err : GoError) :
  c !! "expected_version" = Some (VString v) →
  (ParseTolerant v).2 = Some err →
  returns
    (validateAttr ParseInt (providerData ParseTolerant Quote c env)
       "expected_version"
       (attribute TypeString (Some (VString defaultExpectedPostgreSQLVersion))
          None (Some (validateExpectedVersion ParseTolerant Quote))))
    [versionError Quote v err].
Proof.
  intros Hc Hv w. unfold validateAttr. cbn [config providerData].
  rewrite Hc. unfold mbind, Go_bind.
  destruct (ParseTolerant v) as [ver perr] eqn:Hparse.
  simpl in Hv. subst perr. simpl.
  unfold validateExpectedVersion, mbind, Go_bind. simpl.
  by rewrite Hparse.
Qed.

Lemma validateAttr_version_accepted (c : gmap string Value) (env : Environ)
    (v : string) :
  c !! "expected_version" = Some (VString v) →
  (ParseTolerant v).2 = None →
  returns
    (validateAttr ParseInt (providerData ParseTolerant Quote c env)
       "expected_version"
       (attribute TypeString (Some (VString defaultExpectedPostgreSQLVersion))
          None (Some (validateExpectedVersion ParseTolerant Quote))))
    [].
Proof.
  intros Hc Hv w. unfold validateAttr. cbn [config providerData].
  rewrite Hc. unfold mbind, Go_bind.
  destruct (ParseTolerant v) as [ver perr] eqn:Hparse.
  simpl in Hv. subst perr. simpl.
  unfold validateExpectedVersion, mbind, Go_bind. simpl.
  by rewrite Hparse.
Qed.

(** Taking [expected_version] out of a block whose version parses does not
    change what validation reports. *)
Lemma validate_without_version (c : gmap string Value) (env : Environ)
    (v : string) (w : World) :
  c !! "expected_version" = Some (VString v) →
  (ParseTolerant v).2 = None →
  Validate ParseInt (providerData ParseTolerant Quote c env) w
  = Validate ParseInt
      (providerData ParseTolerant Quote (delete "expected_version" c) env) w.
Proof.
  intros Hc Hv. unfold Validate. cbn [schema providerData].
  apply validateAll_ext. unfold providerSchema.
  repeat apply List.Forall_cons; try apply List.Forall_nil; intros w';
    cbn [fst snd];
    try (unfold validateAttr; cbn [config environ providerData];
         by rewrite lookup_delete_ne by done).
  rewrite (validateAttr_version_accepted c env v Hc Hv w').
  unfold validateAttr. cbn [config providerData].
  by rewrite lookup_delete_eq.
Qed.

(** C1: a block whose [expected_version] does not parse is rejected with
    an error that names the string and wraps the parser's error, and
    [providerConfigure] does not run; a block whose [expected_version]
    parses, and which is valid otherwise, is configured with the parsed
    version. *)
Theorem expected_version_gate (ctx : Context) (c : gmap string Value)
    (env : Environ) (w : World) (v : string) :
  wellTyped ParseInt (providerData ParseTolerant Quote c env) = true →
  c !! "expected_version" = Some (VString v) →
  (∀ err, (ParseTolerant v).2 = Some err →
     ∃ es e,
       configure ParseInt
         (Provider ParseInt ParseTolerant Quote randIntn hashSeed ctx) c env w
       = Returned (Rejected es) w
       ∧ e ∈ es
       ∧ Unwrap e = Some err
       ∧ Contains (Error e) (Quote v))
  ∧ ((ParseTolerant v).2 = None →
     Validate ParseInt
       (providerData ParseTolerant Quote (delete "expected_version" c) env) w
     = Returned [] w →
     ∃ client w',
       configure ParseInt
         (Provider ParseInt ParseTolerant Quote randIntn hashSeed ctx) c env w
       = Returned (Configured client) w'
       ∧ ExpectedVersion (clientConfig client) = (ParseTolerant v).1).
Proof.
  intros Hd Hc. split.
  - intros err Hv.
    destruct (validateAll_returns ParseInt _ _
                (provider_validation_quiet c env Hd)) as (es & Hes & Hin).
    exists es, (versionError Quote v err).
    assert (versionError Quote v err ∈ es) as He.
    { eapply (Hin ("expected_version", _)); cycle 1.
      - by apply validateAttr_version_rejected.
      - apply list_elem_of_here.
      - unfold providerSchema. apply list_elem_of_In. simpl. tauto. }
    split; [|split; [done|split; [done|]]].
    + unfold configure. erewrite bind_returns by exact Hes.
      destruct es; [by apply elem_of_nil in He | done].
    + simpl. auto with contains.
  - intros Hv Hrest.
    rewrite <- (validate_without_version c env v w Hc Hv) in Hrest.
    eexists _, _. split.
    + unfold configure, Provider. cbn [ProviderSchema ConfigureFunc].
      unfold mbind at 1, Go_bind at 1.
      change (mkResourceData (providerSchema ParseTolerant Quote) c env)
        with (providerData ParseTolerant Quote c env).
      rewrite Hrest. unfold mbind, Go_bind.
      by rewrite providerConfigure_returns.
    + simpl. unfold attrString.
      by erewrite attr_configured by (from_block Hc).
Qed.

End VersionGate.

(** * The statements on closed inputs *)

Lemma Sample_randIntn_range (seed : Z) (k : nat) (n : Z) :
  0 < n → 0 ≤ Sample.randIntn seed k n < n.
Proof. intros Hn. unfold Sample.randIntn. by apply Z.mod_pos_bound. Qed.

(** A block with ["not-a-version"] is rejected; one with ["12.3"] is
    configured with version 12.3.0. *)
Lemma expected_version_gate_witness :
  (∃ es,
     configure Sample.ParseInt
       (Provider Sample.ParseInt Sample.ParseTolerant Sample.Quote
          Sample.randIntn Sample.hashSeed Background)
       Sample.versionBad Sample.env0 Sample.w0
     = Returned (Rejected es) Sample.w0
     ∧ es ≠ [])
  ∧ ∃ client w',
      configure Sample.ParseInt
        (Provider Sample.ParseInt Sample.ParseTolerant Sample.Quote
           Sample.randIntn Sample.hashSeed Background)
        Sample.versionShort Sample.env0 Sample.w0
      = Returned (Configured client) w'
      ∧ ExpectedVersion (clientConfig client) = mkVersion 12 3 0 [] [].
Proof.
  split.
  - destruct (expected_version_gate Sample.ParseInt Sample.ParseTolerant
                Sample.Quote Sample.randIntn Sample.hashSeed Background
                Sample.versionBad Sample.env0 Sample.w0 "not-a-version")
      as [Hbad _]; [vm_compute; reflexivity | vm_compute; reflexivity |].
    destruct (Hbad (errorString
                      "Invalid character(s) found in version not-a-version"))
      as (es & e & Hrun & He & _); [vm_compute; reflexivity|].
    exists es. split; [exact Hrun|].
    intros ->. by apply elem_of_nil in He.
  - destruct (expected_version_gate Sample.ParseInt Sample.ParseTolerant
                Sample.Quote Sample.randIntn Sample.hashSeed Background
                Sample.versionShort Sample.env0 Sample.w0 "12.3")
      as [_ Hgood]; [vm_compute; reflexivity | vm_compute; reflexivity |].
    destruct Hgood as (client & w' & Hrun & Hv);
      [vm_compute; reflexivity | vm_compute; reflexivity |].
    exists client, w'. split; [exact Hrun|]. rewrite Hv.
    vm_compute; reflexivity.
Defined.

(** With [sslmode] set to the empty string and [ssl_mode] to ["require"],
    the descriptor's SSL mode is not what [sslmode] is set to. *)
Lemma sslmode_set_empty_counterexample :
  ¬ (∀ s,
       Sample.sslmodeEmpty !! "sslmode" = Some (VString s) →
       ∃ client w',
         providerConfigure Sample.ParseInt Sample.ParseTolerant
           Sample.randIntn Sample.hashSeed Background
           (providerData Sample.ParseTolerant Sample.Quote
              Sample.sslmodeEmpty Sample.env0) Sample.w0
         = Returned (client, None) w'
         ∧ SSLMode (clientConfig client) = s).
Proof.
  intros H. destruct (H "") as (client & w' & Hrun & Hs);
    [vm_compute; reflexivity|].
  vm_compute in Hrun. injection Hrun as <- _. vm_compute in Hs.
  discriminate Hs.
Qed.

(** With both attributes set to non-empty strings the SSL mode is that of
    [sslmode]. *)
Lemma sslmode_precedence_witness :
  wellTyped Sample.ParseInt
    (providerData Sample.ParseTolerant Sample.Quote
       Sample.sslmodeBoth Sample.env0) = true
  ∧ ∃ client w',
      providerConfigure Sample.ParseInt Sample.ParseTolerant
        Sample.randIntn Sample.hashSeed Background
        (providerData Sample.ParseTolerant Sample.Quote
           Sample.sslmodeBoth Sample.env0) Sample.w0
      = Returned (client, None) w'
      ∧ SSLMode (clientConfig client) = "verify-full".
Proof.
  split; [vm_compute; reflexivity|].
  destruct (sslmode_precedence Sample.ParseInt Sample.ParseTolerant
              Sample.Quote Sample.randIntn Sample.hashSeed Background
              Sample.sslmodeBoth Sample.env0 Sample.w0)
    as (client & w' & Hrun & Hset & _); [vm_compute; reflexivity|].
  exists client, w'. split; [exact Hrun|].
  apply Hset; [vm_compute; reflexivity | discriminate].
Defined.

Lemma sslmode_empty_is_unset_witness :
  wellTyped Sample.ParseInt
    (providerData Sample.ParseTolerant Sample.Quote
       Sample.sslmodeEmpty Sample.env0) = true
  ∧ Sample.sslmodeEmpty !! "sslmode" = Some (VString "")
  ∧ GetOk Sample.ParseInt
      (providerData Sample.ParseTolerant Sample.Quote
         Sample.sslmodeEmpty Sample.env0) "sslmode" Sample.w0
    = Returned (VString "", false) Sample.w0
  ∧ ∃ client w',
      providerConfigure Sample.ParseInt Sample.ParseTolerant
        Sample.randIntn Sample.hashSeed Background
        (providerData Sample.ParseTolerant Sample.Quote
           Sample.sslmodeEmpty Sample.env0) Sample.w0
      = Returned (client, None) w'
      ∧ SSLMode (clientConfig client) = "require".
Proof.
  split; [vm_compute; reflexivity|]. split; [vm_compute; reflexivity|].
  destruct (sslmode_empty_is_unset Sample.ParseInt Sample.ParseTolerant
              Sample.Quote Sample.randIntn Sample.hashSeed Background
              Sample.sslmodeEmpty Sample.env0 Sample.w0)
    as (Hok & client & w' & Hrun & Hm & _);
    [vm_compute; reflexivity | vm_compute; reflexivity |].
  split; [exact Hok|]. exists client, w'. split; [exact Hrun|].
  apply Hm. vm_compute; reflexivity.
Defined.

(** With [PGCONNECT_TIMEOUT] set to 30 and no [connect_timeout] in the
    block, the descriptor's timeout is not 180. *)
Lemma connect_timeout_environment_counterexample :
  ¬ ((∅ : gmap string Value) !! "connect_timeout" = None →
     ∃ client w',
       providerConfigure Sample.ParseInt Sample.ParseTolerant
         Sample.randIntn Sample.hashSeed Background
         (providerData Sample.ParseTolerant Sample.Quote ∅ Sample.envTimeout)
         Sample.w0
       = Returned (client, None) w'
       ∧ ConnectTimeoutSec (clientConfig client) = 180).
Proof.
  intros H. destruct H as (client & w' & Hrun & Ht); [done|].
  vm_compute in Hrun. injection Hrun as <- _. vm_compute in Ht.
  discriminate Ht.
Qed.

Lemma default_constants_witness :
  wellTyped Sample.ParseInt
    (providerData Sample.ParseTolerant Sample.Quote ∅ Sample.env0) = true
  ∧ ∃ client w',
      providerConfigure Sample.ParseInt Sample.ParseTolerant
        Sample.randIntn Sample.hashSeed Background
        (providerData Sample.ParseTolerant Sample.Quote ∅ Sample.env0)
        Sample.w0
      = Returned (client, None) w'
      ∧ MaxConns (clientConfig client) = 20
      ∧ ExpectedVersion (clientConfig client) = mkVersion 9 0 0 [] []
      ∧ ConnectTimeoutSec (clientConfig client) = 180.
Proof.
  split; [vm_compute; reflexivity|].
  destruct (default_constants Sample.ParseInt Sample.ParseTolerant
              Sample.Quote Sample.randIntn Sample.hashSeed Background
              ∅ Sample.env0 Sample.w0)
    as (client & w' & Hrun & Hmax & Hver & Htime); [vm_compute; reflexivity|].
  exists client, w'. split; [exact Hrun|].
  split; [by apply Hmax|]. split; [by rewrite Hver|]. by apply Htime.
Defined.

Lemma providerConfigure_nil_error_witness :
  wellTyped Sample.ParseInt
    (providerData Sample.ParseTolerant Sample.Quote
       Sample.versionBad Sample.env0) = true
  ∧ ∃ client w',
      providerConfigure Sample.ParseInt Sample.ParseTolerant
        Sample.randIntn Sample.hashSeed Background
        (providerData Sample.ParseTolerant Sample.Quote
           Sample.versionBad Sample.env0) Sample.w0
      = Returned (client, None) w'.
Proof.
  split; [vm_compute; reflexivity|].
  destruct (providerConfigure_nil_error Sample.ParseInt Sample.ParseTolerant
              Sample.Quote Sample.randIntn Sample.hashSeed Background
              Sample.versionBad Sample.env0 Sample.w0) as [_ Hreturns].
  apply Hreturns. vm_compute; reflexivity.
Defined.

(** Two assemblies for host ["a1"], port 1, the second in the world the
    first one left and under another context. *)
Lemma tunnel_port_range_and_repeatable_witness :
  wellTyped Sample.ParseInt
    (providerData Sample.ParseTolerant Sample.Quote
       Sample.hostA1 Sample.env0) = true
  ∧ ∃ client1 client2 w',
      (_ ← init 1792540800;
       first ← providerConfigure Sample.ParseInt Sample.ParseTolerant
                 Sample.randIntn Sample.hashSeed Background
                 (providerData Sample.ParseTolerant Sample.Quote
                    Sample.hostA1 Sample.env0);
       second ← providerConfigure Sample.ParseInt Sample.ParseTolerant
                  Sample.randIntn Sample.hashSeed StopContext
                  (providerData Sample.ParseTolerant Sample.Quote
                     Sample.hostA1 Sample.env0);
       mret (first, second)) Sample.w0
      = Returned ((client1, None), (client2, None)) w'
      ∧ 1024 ≤ TunneledPort (clientConfig client1) ≤ 65535
      ∧ TunneledPort (clientConfig client1)
        = TunneledPort (clientConfig client2).
Proof.
  split; [vm_compute; reflexivity|].
  destruct (tunnel_port_range_and_repeatable Sample.ParseInt
              Sample.ParseTolerant Sample.Quote Sample.randIntn
              Sample.hashSeed Sample_randIntn_range
              Background StopContext Sample.hostA1 Sample.hostA1
              Sample.env0 Sample.env0 Sample.w0 Sample.w0 1792540800)
    as (_ & _ & client1 & client2 & w' & Hrun & Hsame);
    [vm_compute; reflexivity | vm_compute; reflexivity |].
  exists client1, client2, w'. split; [exact Hrun|].
  vm_compute in Hrun. injection Hrun as Hc1 Hc2 _.
  rewrite <- Hc1, <- Hc2 in Hsame |- *.
  split; [vm_compute; split; discriminate|].
  apply Hsame; reflexivity.
Defined.

(** Host ["a1"] with port 1 and host ["a"] with port 11: different hosts,
    the same seed string, the same tunnel port. *)
Lemma tunnel_port_seed_concatenation_witness :
  wellTyped Sample.ParseInt
    (providerData Sample.ParseTolerant Sample.Quote
       Sample.hostA1 Sample.env0) = true
  ∧ wellTyped Sample.ParseInt
      (providerData Sample.ParseTolerant Sample.Quote
         Sample.hostA Sample.env0) = true
  ∧ ∃ client1 client2 w1' w2',
      providerConfigure Sample.ParseInt Sample.ParseTolerant
        Sample.randIntn Sample.hashSeed Background
        (providerData Sample.ParseTolerant Sample.Quote
           Sample.hostA1 Sample.env0) Sample.w0
      = Returned (client1, None) w1'
      ∧ providerConfigure Sample.ParseInt Sample.ParseTolerant
          Sample.randIntn Sample.hashSeed Background
          (providerData Sample.ParseTolerant Sample.Quote
             Sample.hostA Sample.env0) Sample.w0
        = Returned (client2, None) w2'
      ∧ Host (clientConfig client1) = "a1"
      ∧ Port (clientConfig client1) = 1
      ∧ Host (clientConfig client2) = "a"
      ∧ Port (clientConfig client2) = 11
      ∧ TunneledPort (clientConfig client1)
        = TunneledPort (clientConfig client2).
Proof.
  split; [vm_compute; reflexivity|]. split; [vm_compute; reflexivity|].
  destruct (tunnel_port_seed_concatenation Sample.ParseInt Sample.ParseTolerant
              Sample.Quote Sample.randIntn Sample.hashSeed
              Background Background Sample.hostA1 Sample.hostA
              Sample.env0 Sample.env0 Sample.w0 Sample.w0)
    as (client1 & client2 & w1' & w2' & Hrun1 & Hrun2 & _ & _ & Hsame);
    [vm_compute; reflexivity | vm_compute; reflexivity |].
  exists client1, client2, w1', w2'.
  split; [exact Hrun1|]. split; [exact Hrun2|].
  vm_compute in Hrun1. vm_compute in Hrun2.
  injection Hrun1 as Hc1 _. injection Hrun2 as Hc2 _.
  rewrite <- Hc1, <- Hc2 in Hsame |- *.
  do 4 (split; [reflexivity|]). apply Hsame. vm_compute; reflexivity.
Defined.


(** The command [pass] prints ["secret"] and a line feed: the password is
    ["secret"]. *)
Lemma password_command_output_trimmed_witness :
  wellTyped Sample.ParseInt
    (providerData Sample.ParseTolerant Sample.Quote
       Sample.passwordCommandOnly Sample.env0) = true
  ∧ Status (Sample.exec Background "pass" []) = Exited 0
  ∧ Stdout (Sample.exec Background "pass" []) = "secret" +:+ newline
  ∧ getCommandOutput Sample.exec Background "pass" [] Sample.w0
    = Returned ("secret" +:+ newline, None) (afterSpawn Sample.w0 "pass" [])
  ∧ resolvePassword Sample.ParseInt Sample.exec Background
      (providerData Sample.ParseTolerant Sample.Quote
         Sample.passwordCommandOnly Sample.env0) Sample.w0
    = Returned ("secret", None) (afterSpawn Sample.w0 "pass" []).
Proof.
  split; [vm_compute; reflexivity|]. split; [vm_compute; reflexivity|].
  split; [vm_compute; reflexivity|].
  apply (password_command_output_trimmed Sample.ParseInt Sample.ParseTolerant
           Sample.Quote Sample.exec Background Sample.passwordCommandOnly
           Sample.env0 Sample.w0 "pass" "secret");
    solve [vm_compute; reflexivity | discriminate].
Defined.


(** * Further properties of the code *)

(** ** [getCommandOutput] *)

Lemma runErr_nil (st : RunStatus) : runErr st = None ↔ st = Exited 0.
Proof.
  destruct st as [code| |]; simpl; [|split; discriminate..].
  destruct code; split; (done || discriminate).
Qed.

(** X1: the error [getCommandOutput] returns is [nil] exactly when the
    child exited with status 0; the output is then everything captured
    from standard output, unchanged, and it is the empty string whenever the
    error is not [nil]. *)
Theorem getCommandOutput_output_or_error
    (exec : Context → string → list string → RunResult)
    (ctx : Context) (command : string) (args : list string) (w : World) :
  ∃ out err w',
    getCommandOutput exec ctx command args w = Returned (out, err) w'
    ∧ (err = None ↔ Status (exec ctx command args) = Exited 0)
    ∧ (err = None → out = Stdout (exec ctx command args))
    ∧ (err ≠ None → out = "").
Proof.
  unfold getCommandOutput, mbind, Go_bind, cmdRun.
  pose proof (runErr_nil (Status (exec ctx command args))) as Hnil.
  destruct (runErr (Status (exec ctx command args))) as [cause|].
  - eexists _, _, _. split; [reflexivity|]. split; [|done].
    split; [discriminate|]. intros Hst. by apply Hnil in Hst.
  - eexists _, _, _. split; [reflexivity|]. split; [|done].
    split; [intros _; by apply Hnil | done].
Qed.

(** ** [validateExpectedVersion] *)

(** X2: on a string [validateExpectedVersion] returns no warning and at
    most one error, none exactly when the string parses; the attribute name
    it is given plays no part in the result.  On a value that is not a
    string it panics. *)
Theorem validateExpectedVersion_reports
    (ParseTolerant : string → Version * error) (Quote : string → string)
    (v : Value) (key : string) (w : World) :
  (∀ s, v = VString s →
     ∃ es,
       validateExpectedVersion ParseTolerant Quote v key w
       = Returned ([], es) w
       ∧ (es = [] ↔ (ParseTolerant s).2 = None)
       ∧ (length es ≤ 1)%nat
       ∧ ∀ key',
           validateExpectedVersion ParseTolerant Quote v key' w
           = Returned ([], es) w)
  ∧ ((∀ s, v ≠ VString s) →
     ∃ reason,
       validateExpectedVersion ParseTolerant Quote v key w = Panicked reason).
Proof.
  split.
  - intros s ->. unfold validateExpectedVersion, mbind, Go_bind. simpl.
    destruct (ParseTolerant s) as [ver [err|]]; simpl;
      eexists; (split; [reflexivity|]); (split; [|split; [simpl; lia|done]]).
    + split; discriminate.
    + done.
  - intros Hv. destruct v as [| | |s| |]; try (by eexists).
    by destruct (Hv s).
Qed.

Lemma validateExpectedVersion_reports_witness :
  (∃ es,
     validateExpectedVersion Sample.ParseTolerant Sample.Quote
       (VString "9.6") "expected_version" Sample.w0
     = Returned ([], es) Sample.w0
     ∧ es = [])
  ∧ ∃ reason,
      validateExpectedVersion Sample.ParseTolerant Sample.Quote
        (VInt 12) "expected_version" Sample.w0
      = Panicked reason.
Proof.
  split.
  - destruct (validateExpectedVersion_reports Sample.ParseTolerant
                Sample.Quote (VString "9.6") "expected_version" Sample.w0)
      as [Hstring _].
    destruct (Hstring "9.6" eq_refl) as (es & Hrun & Hnone & _).
    exists es. split; [exact Hrun|]. apply Hnone. vm_compute; reflexivity.
  - destruct (validateExpectedVersion_reports Sample.ParseTolerant
                Sample.Quote (VInt 12) "expected_version" Sample.w0)
      as [_ Hother].
    apply Hother. intros s; discriminate.
Defined.

(** ** What [providerConfigure] reads, and from where *)

Section Precedence.

Variable ParseInt : string → option Z.
Variable ParseTolerant : string → Version * error.
Variable Quote : string → string.
Variable randIntn : Z → nat → Z → Z.
Variable hashSeed : string → Z.

Lemma attrString_configured (c : gmap string Value) (env : Environ)
    (k : string) (s : Schema) (v : string) :
  lookupSchema (providerSchema ParseTolerant Quote) k = Some s →
  c !! k = Some (VString v) →
  SchemaType s ≠ TypeList →
  attrString ParseInt (providerData ParseTolerant Quote c env) k = v.
Proof.
  intros Hk Hc Hprim. unfold attrString.
  by erewrite attr_configured by (exact Hk || exact Hc || exact Hprim).
Qed.

(** A string attribute with an environment default, not set in the block. *)
Lemma attrString_environment (c : gmap string Value) (env : Environ)
    (k e dflt : string) (dv : option Value) :
  lookupSchema (providerSchema ParseTolerant Quote) k
  = Some (attribute TypeString None (Some (EnvDefaultFunc e dv)) None) →
  match dv with Some (VString x) => x | _ => "" end = dflt →
  dv = None ∨ dv = Some (VString dflt) →
  c !! k = None →
  attrString ParseInt (providerData ParseTolerant Quote c env) k
  = if decide (env e ≠ "") then env e else dflt.
Proof.
  intros Hk Hdflt Hdv Hc. unfold attrString.
  erewrite attr_default by (exact Hk || exact Hc).
  cbv [DefaultValue attribute Default DefaultFunc SchemaType environ
       providerData EnvDefaultFunc].
  case_decide; [done|]. by destruct Hdv as [->| ->].
Qed.

(** An integer attribute with an environment default, not set in the
    block. *)
Lemma attrInt_environment (c : gmap string Value) (env : Environ)
    (k e : string) (dflt : Z)
    (validate : option (Value → string → Go (list string * list GoError))) :
  lookupSchema (providerSchema ParseTolerant Quote) k
  = Some (attribute TypeInt None
            (Some (EnvDefaultFunc e (Some (VInt dflt)))) validate) →
  c !! k = None →
  attrInt ParseInt (providerData ParseTolerant Quote c env) k
  = if decide (env e ≠ "") then default 0 (ParseInt (env e)) else dflt.
Proof.
  intros Hk Hc. unfold attrInt.
  erewrite attr_default by (exact Hk || exact Hc).
  cbv [DefaultValue attribute Default DefaultFunc SchemaType environ
       providerData EnvDefaultFunc].
  case_decide as He; [|done].
  cbv [toPrimitive stringToPrimitive]. rewrite decide_False by done.
  by destruct (ParseInt (env e)).
Qed.

(** X3: [providerConfigure] takes the expected version from
    [semver.ParseTolerant] and drops the error that comes with it: whether
    or not the string of the block parses, it returns a [nil] error and a
    descriptor holding the version value the parser returned. *)
Theorem providerConfigure_ignores_parse_error (ctx : Context)
    (c : gmap string Value) (env : Environ) (w : World) (v : string) :
  wellTyped ParseInt (providerData ParseTolerant Quote c env) = true →
  c !! "expected_version" = Some (VString v) →
  ∃ client w',
    providerConfigure ParseInt ParseTolerant randIntn hashSeed ctx
      (providerData ParseTolerant Quote c env) w
    = Returned (client, None) w'
    ∧ ExpectedVersion (clientConfig client) = (ParseTolerant v).1.
Proof.
  intros Hd Hc. eexists _, _.
  split; [by apply providerConfigure_returns|].
  cbn [clientConfig NewClient ExpectedVersion descriptor].
  by erewrite attrString_configured by (from_block Hc).
Qed.

(** X4: assembling the descriptor starts no child process, whatever the
    block says: a [password_command] is copied into the descriptor as it is
    written, next to the password, and is not run. *)
Theorem providerConfigure_spawns_nothing (ctx : Context)
    (c : gmap string Value) (env : Environ) (w : World) :
  wellTyped ParseInt (providerData ParseTolerant Quote c env) = true →
  ∃ client w',
    providerConfigure ParseInt ParseTolerant randIntn hashSeed ctx
      (providerData ParseTolerant Quote c env) w
    = Returned (client, None) w'
    ∧ spawned w' = spawned w
    ∧ (∀ command, c !! "password_command" = Some (VString command) →
         PasswordCommand (clientConfig client) = command)
    ∧ (c !! "password_command" = None →
         PasswordCommand (clientConfig client) = "").
Proof.
  intros Hd. eexists _, _.
  split; [by apply providerConfigure_returns|].
  split; [done|].
  cbn [clientConfig NewClient PasswordCommand descriptor]. split.
  - intros command Hc.
    by erewrite attrString_configured by (from_block Hc).
  - intros Hc. unfold attrString.
    by erewrite attr_default by (reflexivity || exact Hc).
Qed.

(** X5: for [host], [username], [password] and [database] the value
    written in the block wins, the empty string included; without one the
    environment variable is used when it is not empty, and the built-in
    default otherwise. *)
Theorem string_attribute_precedence (ctx : Context)
    (c : gmap string Value) (env : Environ) (w : World) :
  wellTyped ParseInt (providerData ParseTolerant Quote c env) = true →
  ∃ client w',
    providerConfigure ParseInt ParseTolerant randIntn hashSeed ctx
      (providerData ParseTolerant Quote c env) w
    = Returned (client, None) w'
    ∧ ∀ k e dflt (field : Client → string),
        (k, e, dflt, field)
        ∈ [ ("host", "PGHOST", "", λ cl, Host (clientConfig cl));
            ("username", "PGUSER", "postgres",
             λ cl, Username (clientConfig cl));
            ("password", "PGPASSWORD", "", λ cl, Password (clientConfig cl));
            ("database", "PGDATABASE", "postgres", databaseName) ] →
        (∀ v, c !! k = Some (VString v) → field client = v)
        ∧ (c !! k = None → env e ≠ "" → field client = env e)
        ∧ (c !! k = None → env e = "" → field client = dflt).
Proof.
  intros Hd. eexists _, _.
  split; [by apply providerConfigure_returns|].
  intros k e dflt field Hin.
  repeat (apply elem_of_cons in Hin as [[= -> -> -> ->]|Hin]);
    [..|by apply elem_of_nil in Hin];
    cbn [clientConfig databaseName NewClient Host Username Password
         descriptor];
    (split; [|split]).
  all: try (intros v Hc;
            by erewrite attrString_configured by (from_block Hc)).
  all: intros Hc He;
    erewrite attrString_environment
      by (reflexivity || exact Hc || (by left) || (by right));
    by (rewrite decide_True by done) || by (rewrite decide_False by tauto).
Qed.

(** X6: for [port] and [connect_timeout] the number written in the block
    wins; without one the environment variable is parsed when it is not
    empty, and the built-in default (5432, 180) is used otherwise.
    [superuser] is read the same way, [true] being the default. *)
Theorem number_attribute_precedence (ctx : Context)
    (c : gmap string Value) (env : Environ) (w : World) :
  wellTyped ParseInt (providerData ParseTolerant Quote c env) = true →
  ∃ client w',
    providerConfigure ParseInt ParseTolerant randIntn hashSeed ctx
      (providerData ParseTolerant Quote c env) w
    = Returned (client, None) w'
    ∧ (∀ k e dflt (field : Config → Z),
         (k, e, dflt, field)
         ∈ [ ("port", "PGPORT", 5432, Port);
             ("connect_timeout", "PGCONNECT_TIMEOUT", 180,
              ConnectTimeoutSec) ] →
         (∀ n, c !! k = Some (VInt n) → field (clientConfig client) = n)
         ∧ (∀ n, c !! k = None → env e ≠ "" → ParseInt (env e) = Some n →
              field (clientConfig client) = n)
         ∧ (c !! k = None → env e = "" →
              field (clientConfig client) = dflt))
    ∧ (∀ b, c !! "superuser" = Some (VBool b) →
         Superuser (clientConfig client) = b)
    ∧ (∀ b, c !! "superuser" = None → env "PGSUPERUSER" ≠ "" →
         ParseBool (env "PGSUPERUSER") = Some b →
         Superuser (clientConfig client) = b)
    ∧ (c !! "superuser" = None → env "PGSUPERUSER" = "" →
         Superuser (clientConfig client) = true).
Proof.
  intros Hd. eexists _, _.
  split; [by apply providerConfigure_returns|].
  split; [|split; [|split]].
  - intros k e dflt field Hin.
    repeat (apply elem_of_cons in Hin as [[= -> -> -> ->]|Hin]);
      [..|by apply elem_of_nil in Hin];
      cbn [clientConfig NewClient Port ConnectTimeoutSec descriptor];
      (split; [|split]).
    all: try (intros n Hc; unfold attrInt;
              by erewrite attr_configured by (from_block Hc)).
    all: try (intros n Hc He Hn;
              erewrite attrInt_environment by (reflexivity || exact Hc);
              rewrite decide_True by done; by rewrite Hn).
    all: intros Hc He;
      erewrite attrInt_environment by (reflexivity || exact Hc);
      by rewrite decide_False by tauto.
  - intros b Hc. cbn [clientConfig NewClient Superuser descriptor].
    unfold attrBool.
    by erewrite attr_configured by (from_block Hc).
  - intros b Hc He Hb. cbn [clientConfig NewClient Superuser descriptor].
    unfold attrBool. erewrite attr_default by (reflexivity || exact Hc).
    cbv [DefaultValue attribute Default DefaultFunc SchemaType environ
         providerData EnvDefaultFunc].
    rewrite decide_True by done.
    cbv [toPrimitive stringToPrimitive]. rewrite decide_False by done.
    by rewrite Hb.
  - intros Hc He. cbn [clientConfig NewClient Superuser descriptor].
    unfold attrBool. erewrite attr_default by (reflexivity || exact Hc).
    cbv [DefaultValue attribute Default DefaultFunc SchemaType environ
         providerData EnvDefaultFunc].
    by rewrite decide_False by tauto.
Qed.

End Precedence.

(** ** What validation rejects *)

Section Rejection.

Variable ParseInt : string → option Z.
Variable ParseTolerant : string → Version * error.
Variable Quote : string → string.
Variable randIntn : Z → nat → Z → Z.
Variable hashSeed : string → Z.

(** An error reported for one attribute of a well-typed block rejects the
    block, and the world is left as it was. *)
Lemma configure_rejects (ctx : Context) (c : gmap string Value)
    (env : Environ) (w : World) (k : string) (s : Schema)
    (es' : list GoError) (e : GoError) :
  wellTyped ParseInt (providerData ParseTolerant Quote c env) = true →
  (k, s) ∈ providerSchema ParseTolerant Quote →
  returns (validateAttr ParseInt (providerData ParseTolerant Quote c env) k s)
    es' →
  e ∈ es' →
  ∃ es,
    configure ParseInt
      (Provider ParseInt ParseTolerant Quote randIntn hashSeed ctx) c env w
    = Returned (Rejected es) w
    ∧ e ∈ es.
Proof.
  intros Hd Hk Hes' He.
  destruct (validateAll_returns ParseInt _ _
              (provider_validation_quiet ParseInt ParseTolerant Quote
                 c env Hd)) as (es & Hes & Hin).
  assert (e ∈ es) as Hees by (by eapply (Hin (k, s))).
  exists es. split; [|done].
  unfold configure. erewrite bind_returns by exact Hes.
  destruct es; [by apply elem_of_nil in Hees | done].
Qed.

(** Configuration of a well-typed block is rejected or succeeds. *)
Lemma configure_outcome (ctx : Context) (c : gmap string Value)
    (env : Environ) (w : World) :
  wellTyped ParseInt (providerData ParseTolerant Quote c env) = true →
  (∃ es,
     es ≠ []
     ∧ configure ParseInt
         (Provider ParseInt ParseTolerant Quote randIntn hashSeed ctx) c env w
       = Returned (Rejected es) w)
  ∨ (configure ParseInt
       (Provider ParseInt ParseTolerant Quote randIntn hashSeed ctx) c env w
     = Returned
         (Configured
            (NewClient
               (descriptor ParseInt ParseTolerant randIntn hashSeed
                  (Merge StopContext ctx)
                  (providerData ParseTolerant Quote c env))
               (attrString ParseInt (providerData ParseTolerant Quote c env)
                  "database")))
         (afterTunnelPort hashSeed w
            (attrString ParseInt (providerData ParseTolerant Quote c env)
               "host")
            (attrInt ParseInt (providerData ParseTolerant Quote c env)
               "port"))).
Proof.
  intros Hd.
  destruct (validateAll_returns ParseInt _ _
              (provider_validation_quiet ParseInt ParseTolerant Quote
                 c env Hd)) as (es & Hes & _).
  unfold configure. erewrite bind_returns by exact Hes.
  destruct es as [|e es].
  - right. unfold Provider. cbn [ProviderSchema ConfigureFunc].
    change (mkResourceData (providerSchema ParseTolerant Quote) c env)
      with (providerData ParseTolerant Quote c env).
    unfold mbind, Go_bind. by rewrite providerConfigure_returns.
  - left. by exists (e :: es).
Qed.

(** X7: a block whose [scheme] is not one of ["postgres"], ["awspostgres"]
    and ["gcppostgres"], compared exactly, is rejected before
    [providerConfigure] runs, with an error that quotes the scheme. *)
Theorem scheme_outside_list_rejected (ctx : Context)
    (c : gmap string Value) (env : Environ) (w : World) (scheme : string) :
  wellTyped ParseInt (providerData ParseTolerant Quote c env) = true →
  c !! "scheme" = Some (VString scheme) →
  scheme ∉ ["postgres"; "awspostgres"; "gcppostgres"] →
  ∃ es e,
    configure ParseInt
      (Provider ParseInt ParseTolerant Quote randIntn hashSeed ctx) c env w
    = Returned (Rejected es) w
    ∧ e ∈ es
    ∧ Contains (Error e) scheme.
Proof.
  intros Hd Hc Hout.
  edestruct (configure_rejects ctx c env w "scheme") as (es & Hrun & He);
    [exact Hd | apply list_elem_of_here | | apply list_elem_of_here |].
  - intros w'. unfold validateAttr. cbn [config providerData]. rewrite Hc.
    cbn [toPrimitive stringToPrimitive attribute SchemaType ValidateFunc].
    unfold mbind, Go_bind, StringInSlice.
    rewrite bool_decide_false by done. reflexivity.
  - eexists es, _. split; [exact Hrun|]. split; [exact He|].
    simpl. auto 10 with contains.
Qed.

(** X8: a block whose [connect_timeout] or [max_connections] is below -1
    is rejected before [providerConfigure] runs, with an error that shows
    the number; from -1 upwards the attribute reports no error. *)
Theorem number_below_minimum_rejected (ctx : Context)
    (c : gmap string Value) (env : Environ) (w : World) (k : string)
    (n : Z) :
  wellTyped ParseInt (providerData ParseTolerant Quote c env) = true →
  k ∈ ["connect_timeout"; "max_connections"] →
  c !! k = Some (VInt n) →
  (n < -1 →
   ∃ es e,
     configure ParseInt
       (Provider ParseInt ParseTolerant Quote randIntn hashSeed ctx) c env w
     = Returned (Rejected es) w
     ∧ e ∈ es
     ∧ Contains (Error e) (fmt_d n))
  ∧ (-1 ≤ n →
     ∀ s, lookupSchema (providerSchema ParseTolerant Quote) k = Some s →
       returns
         (validateAttr ParseInt (providerData ParseTolerant Quote c env) k s)
         []).
Proof.
  intros Hd Hk Hc.
  assert (∃ dflt dfltFunc,
            lookupSchema (providerSchema ParseTolerant Quote) k
            = Some (attribute TypeInt dflt dfltFunc (Some (IntAtLeast (-1)))))
    as (dflt & dfltFunc & Hs).
  { repeat (apply elem_of_cons in Hk as [->|Hk]);
      [by eexists _, _ | by eexists _, _ | by apply elem_of_nil in Hk]. }
  assert (∀ w',
            validateAttr ParseInt (providerData ParseTolerant Quote c env) k
              (attribute TypeInt dflt dfltFunc (Some (IntAtLeast (-1)))) w'
            = (IntAtLeast (-1) (VInt n) k ≫= λ '(_, es), mret es) w')
    as Hrun.
  { intros w'. unfold validateAttr. cbn [config providerData]. by rewrite Hc. }
  split.
  - intros Hn.
    edestruct (configure_rejects ctx c env w k) as (es & Hrej & He);
      [exact Hd | by apply lookupSchema_elem | | apply list_elem_of_here |].
    + intros w'. rewrite Hrun. unfold mbind, Go_bind, IntAtLeast.
      rewrite decide_True by done. reflexivity.
    + eexists es, _. split; [exact Hrej|]. split; [exact He|].
      simpl. auto 10 with contains.
  - intros Hn s Hs'. rewrite Hs in Hs'. injection Hs' as <-.
    intros w'. rewrite Hrun. unfold mbind, Go_bind, IntAtLeast.
    by rewrite decide_False by lia.
Qed.

(** X11: configuring a well-typed block either is rejected by validation,
    with at least one error and the world untouched, or gives a client whose
    descriptor carries the merge of the stop context and the provider's
    context, no child process having been started; [ConfigureFunc] never
    makes it fail. *)
Theorem configure_rejected_or_configured (parent : Context)
    (c : gmap string Value) (env : Environ) (w : World) :
  wellTyped ParseInt (providerData ParseTolerant Quote c env) = true →
  ((∃ es,
      es ≠ []
      ∧ configure ParseInt
          (Provider ParseInt ParseTolerant Quote randIntn hashSeed parent)
          c env w
        = Returned (Rejected es) w)
   ∨ ∃ client w',
       configure ParseInt
         (Provider ParseInt ParseTolerant Quote randIntn hashSeed parent)
         c env w
       = Returned (Configured client) w'
       ∧ ctx (clientConfig client) = Merge StopContext parent
       ∧ ApplicationName (clientConfig client) = "Terraform provider"
       ∧ spawned w' = spawned w)
  ∧ ∀ err w',
      configure ParseInt
        (Provider ParseInt ParseTolerant Quote randIntn hashSeed parent) c env w
      ≠ Returned (Failed err) w'.
Proof.
  intros Hd.
  destruct (configure_outcome parent c env w Hd) as [(es & Hne & Hrun)|Hrun].
  - split; [left; by exists es|]. intros err w'. by rewrite Hrun.
  - split; [right; eexists _, _; by split|].
    intros err w'. by rewrite Hrun.
Qed.

End Rejection.

(** ** The client certificate *)

Section Certificate.

Variable ParseInt : string → option Z.
Variable ParseTolerant : string → Version * error.
Variable Quote : string → string.
Variable randIntn : Z → nat → Z → Z.
Variable hashSeed : string → Z.

(** X9: the descriptor's client certificate comes from the first
    [clientcert] block: its paths are the [cert] and [key] of that block,
    unless both are empty, in which case the block reaches
    [providerConfigure] as [nil] and is passed over; with no block, or an
    empty list, the field is [nil] as well. *)
Theorem client_certificate_assembled (ctx : Context)
    (c : gmap string Value) (env : Environ) (w : World) :
  wellTyped ParseInt (providerData ParseTolerant Quote c env) = true →
  ∃ client w',
    providerConfigure ParseInt ParseTolerant randIntn hashSeed ctx
      (providerData ParseTolerant Quote c env) w
    = Returned (client, None) w'
    ∧ (c !! "clientcert" = None ∨ c !! "clientcert" = Some (VList []) →
         SSLClientCert (clientConfig client) = None)
    ∧ (∀ spec rest cert key,
         c !! "clientcert" = Some (VList (VMap spec :: rest)) →
         spec !! "cert" = Some (VString cert) →
         spec !! "key" = Some (VString key) →
         SSLClientCert (clientConfig client)
         = if decide (cert = "" ∧ key = "") then None
           else Some (mkClientCertificateConfig cert key)).
Proof.
  intros Hd. eexists _, _.
  split; [by apply providerConfigure_returns|].
  cbn [clientConfig NewClient SSLClientCert descriptor]. split.
  - intros [Hc|Hc].
    + by erewrite attr_default by (reflexivity || exact Hc).
    + by erewrite attr_read by (reflexivity || exact Hc).
  - intros spec rest cert key Hc Hcert Hkey.
    erewrite attr_read by (reflexivity || exact Hc).
    cbn [readConfigured attribute SchemaType Elem fmap list_fmap readBlock
         fst snd ElemType Zero].
    rewrite Hcert, Hkey. cbn [default].
    destruct cert, key;
      [ rewrite decide_True by done
      | rewrite decide_False by (intros [? ?]; discriminate)..];
      vm_compute; reflexivity.
Qed.

End Certificate.

(** ** The further properties on closed inputs *)

(** ["not-a-version"] does not parse, and [providerConfigure] returns the
    zero version with a [nil] error. *)
Lemma providerConfigure_ignores_parse_error_witness :
  (Sample.ParseTolerant "not-a-version").2 ≠ None
  ∧ ∃ client w',
      providerConfigure Sample.ParseInt Sample.ParseTolerant
        Sample.randIntn Sample.hashSeed Background
        (providerData Sample.ParseTolerant Sample.Quote
           Sample.versionBad Sample.env0) Sample.w0
      = Returned (client, None) w'
      ∧ ExpectedVersion (clientConfig client) = mkVersion 0 0 0 [] [].
Proof.
  split; [vm_compute; discriminate|].
  destruct (providerConfigure_ignores_parse_error Sample.ParseInt
              Sample.ParseTolerant Sample.Quote Sample.randIntn
              Sample.hashSeed Background Sample.versionBad Sample.env0
              Sample.w0 "not-a-version")
    as (client & w' & Hrun & Hv);
    [vm_compute; reflexivity | vm_compute; reflexivity |].
  exists client, w'. split; [exact Hrun|]. rewrite Hv. vm_compute; reflexivity.
Defined.

Lemma providerConfigure_spawns_nothing_witness :
  wellTyped Sample.ParseInt
    (providerData Sample.ParseTolerant Sample.Quote
       Sample.passwordCommandOnly Sample.env0) = true
  ∧ ∃ client w',
      providerConfigure Sample.ParseInt Sample.ParseTolerant
        Sample.randIntn Sample.hashSeed Background
        (providerData Sample.ParseTolerant Sample.Quote
           Sample.passwordCommandOnly Sample.env0) Sample.w0
      = Returned (client, None) w'
      ∧ spawned w' = []
      ∧ PasswordCommand (clientConfig client) = "pass"
      ∧ Password (clientConfig client) = "".
Proof.
  split; [vm_compute; reflexivity|].
  destruct (providerConfigure_spawns_nothing Sample.ParseInt
              Sample.ParseTolerant Sample.Quote Sample.randIntn
              Sample.hashSeed Background Sample.passwordCommandOnly
              Sample.env0 Sample.w0)
    as (client & w' & Hrun & Hspawned & Hcommand & _);
    [vm_compute; reflexivity|].
  exists client, w'. split; [exact Hrun|]. split; [exact Hspawned|].
  split; [apply Hcommand; vm_compute; reflexivity|].
  vm_compute in Hrun. injection Hrun as <- _. reflexivity.
Defined.

(** The user name set to the empty string stays empty although [PGUSER] is
    set; the host comes from [PGHOST]; the database is the default. *)
Lemma string_attribute_precedence_witness :
  wellTyped Sample.ParseInt
    (providerData Sample.ParseTolerant Sample.Quote
       Blocks.userEmpty Blocks.envServer) = true
  ∧ ∃ client w',
      providerConfigure Sample.ParseInt Sample.ParseTolerant
        Sample.randIntn Sample.hashSeed Background
        (providerData Sample.ParseTolerant Sample.Quote
           Blocks.userEmpty Blocks.envServer) Sample.w0
      = Returned (client, None) w'
      ∧ Username (clientConfig client) = ""
      ∧ Host (clientConfig client) = "db.internal"
      ∧ databaseName client = "postgres".
Proof.
  split; [vm_compute; reflexivity|].
  destruct (string_attribute_precedence Sample.ParseInt
              Sample.ParseTolerant Sample.Quote Sample.randIntn
              Sample.hashSeed Background Blocks.userEmpty Blocks.envServer
              Sample.w0)
    as (client & w' & Hrun & Hfield); [vm_compute; reflexivity|].
  exists client, w'. split; [exact Hrun|]. split; [|split].
  - destruct (Hfield "username" "PGUSER" "postgres"
                (λ cl, Username (clientConfig cl))) as (Hset & _);
      [apply list_elem_of_further, list_elem_of_here|].
    apply Hset. vm_compute; reflexivity.
  - destruct (Hfield "host" "PGHOST" "" (λ cl, Host (clientConfig cl)))
      as (_ & Henv & _); [apply list_elem_of_here|].
    apply Henv; [vm_compute; reflexivity | vm_compute; discriminate].
  - destruct (Hfield "database" "PGDATABASE" "postgres" databaseName)
      as (_ & _ & Hdflt);
      [do 3 apply list_elem_of_further; apply list_elem_of_here|].
    apply Hdflt; vm_compute; reflexivity.
Defined.

(** The port comes from [PGPORT], the timeout from the block, the superuser
    flag from [PGSUPERUSER]. *)
Lemma number_attribute_precedence_witness :
  wellTyped Sample.ParseInt
    (providerData Sample.ParseTolerant Sample.Quote
       Blocks.userEmpty Blocks.envServer) = true
  ∧ ∃ client w',
      providerConfigure Sample.ParseInt Sample.ParseTolerant
        Sample.randIntn Sample.hashSeed Background
        (providerData Sample.ParseTolerant Sample.Quote
           Blocks.userEmpty Blocks.envServer) Sample.w0
      = Returned (client, None) w'
      ∧ Port (clientConfig client) = 6432
      ∧ ConnectTimeoutSec (clientConfig client) = 5
      ∧ Superuser (clientConfig client) = false.
Proof.
  split; [vm_compute; reflexivity|].
  destruct (number_attribute_precedence Sample.ParseInt
              Sample.ParseTolerant Sample.Quote Sample.randIntn
              Sample.hashSeed Background Blocks.userEmpty Blocks.envServer
              Sample.w0)
    as (client & w' & Hrun & Hfield & _ & Hsuper & _);
    [vm_compute; reflexivity|].
  exists client, w'. split; [exact Hrun|]. split; [|split].
  - destruct (Hfield "port" "PGPORT" 5432 Port) as (_ & Henv & _);
      [apply list_elem_of_here|].
    apply Henv; [vm_compute; reflexivity | vm_compute; discriminate |].
    vm_compute; reflexivity.
  - destruct (Hfield "connect_timeout" "PGCONNECT_TIMEOUT" 180
                ConnectTimeoutSec) as (Hset & _);
      [apply list_elem_of_further, list_elem_of_here|].
    apply Hset. vm_compute; reflexivity.
  - apply Hsuper.
    + vm_compute; reflexivity.
    + vm_compute; discriminate.
    + vm_compute; reflexivity.
Defined.

(** ["Postgres"] is not ["postgres"]. *)
Lemma scheme_outside_list_rejected_witness :
  wellTyped Sample.ParseInt
    (providerData Sample.ParseTolerant Sample.Quote
       Blocks.schemeCapital Sample.env0) = true
  ∧ ∃ es e,
      configure Sample.ParseInt
        (Provider Sample.ParseInt Sample.ParseTolerant Sample.Quote
           Sample.randIntn Sample.hashSeed Background)
        Blocks.schemeCapital Sample.env0 Sample.w0
      = Returned (Rejected es) Sample.w0
      ∧ e ∈ es
      ∧ Contains (Error e) "Postgres".
Proof.
  split; [vm_compute; reflexivity|].
  apply (scheme_outside_list_rejected Sample.ParseInt Sample.ParseTolerant
           Sample.Quote Sample.randIntn Sample.hashSeed Background
           Blocks.schemeCapital Sample.env0 Sample.w0 "Postgres");
    [vm_compute; reflexivity | vm_compute; reflexivity |].
  intros Hin. repeat (apply elem_of_cons in Hin as [Hin|Hin]; [discriminate|]).
  by apply elem_of_nil in Hin.
Defined.

(** A timeout of -2 is rejected; -1 connections report nothing. *)
Lemma number_below_minimum_rejected_witness :
  (∃ es e,
     configure Sample.ParseInt
       (Provider Sample.ParseInt Sample.ParseTolerant Sample.Quote
          Sample.randIntn Sample.hashSeed Background)
       Blocks.timeoutTooLow Sample.env0 Sample.w0
     = Returned (Rejected es) Sample.w0
     ∧ e ∈ es
     ∧ Contains (Error e) "-2")
  ∧ ∀ s,
      lookupSchema (providerSchema Sample.ParseTolerant Sample.Quote)
        "max_connections" = Some s →
      returns
        (validateAttr Sample.ParseInt
           (providerData Sample.ParseTolerant Sample.Quote
              Blocks.connectionsUnlimited Sample.env0) "max_connections" s)
        [].
Proof.
  split.
  - destruct (number_below_minimum_rejected Sample.ParseInt
                Sample.ParseTolerant Sample.Quote Sample.randIntn
                Sample.hashSeed Background Blocks.timeoutTooLow Sample.env0
                Sample.w0 "connect_timeout" (-2))
      as [Hlow _];
      [vm_compute; reflexivity | apply list_elem_of_here
      | vm_compute; reflexivity |].
    apply Hlow. lia.
  - destruct (number_below_minimum_rejected Sample.ParseInt
                Sample.ParseTolerant Sample.Quote Sample.randIntn
                Sample.hashSeed Background Blocks.connectionsUnlimited
                Sample.env0 Sample.w0 "max_connections" (-1))
      as [_ Hok];
      [vm_compute; reflexivity
      | apply list_elem_of_further, list_elem_of_here
      | vm_compute; reflexivity |].
    apply Hok. lia.
Defined.

Lemma configure_rejected_or_configured_witness :
  wellTyped Sample.ParseInt
    (providerData Sample.ParseTolerant Sample.Quote ∅ Sample.env0) = true
  ∧ ∃ client w',
      configure Sample.ParseInt
        (Provider Sample.ParseInt Sample.ParseTolerant Sample.Quote
           Sample.randIntn Sample.hashSeed Background)
        ∅ Sample.env0 Sample.w0
      = Returned (Configured client) w'
      ∧ ctx (clientConfig client) = Merge StopContext Background.
Proof.
  split; [vm_compute; reflexivity|].
  destruct (configure_rejected_or_configured Sample.ParseInt
              Sample.ParseTolerant Sample.Quote Sample.randIntn
              Sample.hashSeed Background ∅ Sample.env0 Sample.w0)
    as [[(es & Hne & Hrun)|(client & w' & Hrun & Hctx & _)] _];
    [vm_compute; reflexivity | |].
  - vm_compute in Hrun. discriminate Hrun.
  - by exists client, w'.
Defined.

Lemma client_certificate_assembled_witness :
  wellTyped Sample.ParseInt
    (providerData Sample.ParseTolerant Sample.Quote
       Blocks.certificate Sample.env0) = true
  ∧ wellTyped Sample.ParseInt
      (providerData Sample.ParseTolerant Sample.Quote
         Blocks.certificateEmpty Sample.env0) = true
  ∧ (∃ client w',
       providerConfigure Sample.ParseInt Sample.ParseTolerant
         Sample.randIntn Sample.hashSeed Background
         (providerData Sample.ParseTolerant Sample.Quote
            Blocks.certificate Sample.env0) Sample.w0
       = Returned (client, None) w'
       ∧ SSLClientCert (clientConfig client)
         = Some (mkClientCertificateConfig "/etc/ssl/client.crt"
                   "/etc/ssl/client.key"))
  ∧ ∃ client w',
      providerConfigure Sample.ParseInt Sample.ParseTolerant
        Sample.randIntn Sample.hashSeed Background
        (providerData Sample.ParseTolerant Sample.Quote
           Blocks.certificateEmpty Sample.env0) Sample.w0
      = Returned (client, None) w'
      ∧ SSLClientCert (clientConfig client) = None.
Proof.
  split; [vm_compute; reflexivity|]. split; [vm_compute; reflexivity|].
  split.
  - destruct (client_certificate_assembled Sample.ParseInt
                Sample.ParseTolerant Sample.Quote Sample.randIntn
                Sample.hashSeed Background Blocks.certificate Sample.env0
                Sample.w0)
      as (client & w' & Hrun & _ & Hcert); [vm_compute; reflexivity|].
    exists client, w'. split; [exact Hrun|].
    erewrite Hcert; [|vm_compute; reflexivity..]. reflexivity.
  - destruct (client_certificate_assembled Sample.ParseInt
                Sample.ParseTolerant Sample.Quote Sample.randIntn
                Sample.hashSeed Background Blocks.certificateEmpty
                Sample.env0 Sample.w0)
      as (client & w' & Hrun & _ & Hcert); [vm_compute; reflexivity|].
    exists client, w'. split; [exact Hrun|].
    erewrite (Hcert _ _ "" ""); [|vm_compute; reflexivity..]. reflexivity.
Defined.
